(** * Grounding-Llama: the search-augmented answer pipeline of [app.py]

    A shallow embedding of [StreamlitChatbot] (src/app.py) and the
    properties of its answer pipeline: year extraction, content analysis,
    prompt composition, the search fetcher, the two completion modes and
    the chat transcript kept in the Streamlit session. *)

From Stdlib Require Import ZArith NArith Ascii DecimalString Lia.
From stdpp Require Import base option list strings gmap.

Open Scope nat_scope.

(** ** Python strings

    A Python [str] is a sequence of Unicode code points; a code point is a
    number in [N].  The literals of the source are ASCII and are written
    with [lit]. *)

Abbreviation str := (list N).

Definition lit (s : String.string) : str :=
  N_of_ascii <$> String.list_ascii_of_string s.

Arguments lit s%_string.

(** [text[i:i+4]]. *)
Definition slice4 (text : str) (i : nat) : str := take 4 (drop i text).

(** [p] is a prefix of [s] ([s.startswith(p)]). *)
Fixpoint startswith (p s : str) : bool :=
  match p, s with
  | [], _ => true
  | _ :: _, [] => false
  | c :: p', d :: s' => N.eqb c d && startswith p' s'
  end.

(** [sub in s] on Python strings: [sub] occurs at some offset of [s]. *)
Fixpoint contains (sub s : str) : bool :=
  startswith sub s ||
  match s with
  | [] => false
  | _ :: s' => contains sub s'
  end.

(** [sep.join(parts)]. *)
Fixpoint join (sep : str) (parts : list str) : str :=
  match parts with
  | [] => []
  | [p] => p
  | p :: rest => p ++ sep ++ join sep rest
  end.

(** [str(n)] for a Python [int]: decimal digits, with a leading minus sign
    for negative numbers. *)
Definition str_of_int (n : Z) : str := lit (NilZero.string_of_int (Z.to_int n)).

(** ** The [re] module on the pattern of [extract_date_from_content]

    The pattern is [\b20[12]\d\b].  For a [str] pattern [\d] is any Unicode
    decimal digit and [\w], which decides [\b], any Unicode word character.
    Both tables belong to the Python runtime and are parameters here;
    [ascii_decimal] and [ascii_word] below are their restrictions to ASCII. *)

Definition ascii_decimal (c : N) : bool := ((48 <=? c) && (c <=? 57))%N.

Definition ascii_word (c : N) : bool :=
  (ascii_decimal c
   || ((65 <=? c) && (c <=? 90))
   || ((97 <=? c) && (c <=? 122))
   || (c =? 95))%N.

Definition char_is (c : N) (o : option N) : bool :=
  match o with
  | Some d => N.eqb d c
  | None => false
  end.

Definition char_in (cls : N -> bool) (o : option N) : bool :=
  match o with
  | Some d => cls d
  | None => false
  end.

Section Regex.

Variable is_decimal : N -> bool.
Variable is_word : N -> bool.

(** [\b] at offset [i]: exactly one of the characters before and after
    the offset is a word character; the ends of the text count as
    non-word. *)
Definition word_before (text : str) (i : nat) : bool :=
  match i with
  | 0 => false
  | S j => char_in is_word (text !! j)
  end.

Definition boundary_at (text : str) (i : nat) : bool :=
  xorb (word_before text i) (char_in is_word (text !! i)).

(** [year_pattern = r'\b20[12]\d\b'] matched at offset [i]. *)
Definition year_pattern_at (text : str) (i : nat) : bool :=
  boundary_at text i
  && char_is 50 (text !! i)
  && char_is 48 (text !! (i + 1))
  && (char_is 49 (text !! (i + 2)) || char_is 50 (text !! (i + 2)))
  && char_in is_decimal (text !! (i + 3))
  && boundary_at text (i + 4).

(** [re.findall] for a pattern without groups whose matches are four
    characters long: scan from the left; a match at [pos] is reported and
    the scan resumes after it, otherwise the scan moves one character
    on.  [fuel] bounds the number of offsets tried. *)
Fixpoint findall_from (m : str -> nat -> bool) (fuel pos : nat) (text : str)
  : list str :=
  match fuel with
  | 0 => []
  | S fuel' =>
      if m text pos
      then slice4 text pos :: findall_from m fuel' (pos + 4) text
      else findall_from m fuel' (pos + 1) text
  end.

Definition findall (m : str -> nat -> bool) (text : str) : list str :=
  findall_from m (S (length text)) 0 text.

(** [extract_date_from_content]: [years[-1] if years else None]. *)
Definition extract_date_from_content (text : str) : option str :=
  let years := findall year_pattern_at text in
  last years.

(** The pattern as the specification words it: ["20"], one digit in
    [{0,1,2}], any digit; no word boundaries. *)
Definition spec_year_at (text : str) (i : nat) : bool :=
  char_is 50 (text !! i)
  && char_is 48 (text !! (i + 1))
  && (char_is 48 (text !! (i + 2)) || char_is 49 (text !! (i + 2))
      || char_is 50 (text !! (i + 2)))
  && char_in is_decimal (text !! (i + 3)).

(** [extractYear] as the specification words it: the last match of the
    specification's pattern in scan order. *)
Definition spec_extractYear (text : str) : option str :=
  last (findall spec_year_at text).

(** The text contains a substring matching the specification's pattern. *)
Definition has_spec_year (text : str) : bool :=
  existsb (spec_year_at text) (seq 0 (length text)).

(** The offsets at which a pattern matches, in increasing order. *)
Definition match_offsets (m : str -> nat -> bool) (text : str) : list nat :=
  filter (λ i, m text i = true) (seq 0 (length text)).

End Regex.

(** ** Exceptions, collaborators and effects *)

(** A raised Python exception: whether it is an instance of [Exception]
    (what [except Exception] catches; [KeyboardInterrupt] and [SystemExit]
    are not) and its [str(e)]. *)
Record PyExc := { is_Exception : bool; exc_str : str }.

(** [KeyError(key)] for a string key; its [str] is the [repr] of the key. *)
Definition KeyError (key : str) : PyExc :=
  {| is_Exception := true; exc_str := [39%N] ++ key ++ [39%N] |}.

Inductive Outcome (A : Type) : Type :=
| Ret (a : A)
| Raise (e : PyExc).

Arguments Ret {A} a.
Arguments Raise {A} e.

(** A search result is a [dict] from field names to strings. *)
Abbreviation Dict := (gmap (list N) (list N)).

(** A chat message, [{'role': ..., 'content': ...}]. *)
Record Message := { role : str; content : str }.

(** What the program does to the outside world, in order. *)
Inductive Event : Type :=
| EvSpinner (label : str)
| EvSearch (keywords : str) (max_results : Z)
| EvError (msg : str)
| EvChat (model : str) (messages : list Message).

(** The world around one call: the Unicode tables of [re], the clock,
    the search provider ([DDGS.text]) and the model endpoint
    ([ollama.chat], reduced to [response['message']['content']]). *)
Record Env := {
  re_decimal : N -> bool;
  re_word : N -> bool;
  now_year : Z;
  ddgs_text : str -> Z -> Outcome (list Dict);
  ollama_chat : str -> list Message -> Outcome str
}.

(** Computations that may raise and that leave a trace of events. *)
Definition Eff (A : Type) : Type := Outcome A * list Event.

Definition ret {A} (a : A) : Eff A := (Ret a, []).

Definition lift {A} (o : Outcome A) : Eff A := (o, []).

Definition emit (ev : Event) : Eff unit := (Ret tt, [ev]).

Definition call {A} (ev : Event) (o : Outcome A) : Eff A := (o, [ev]).

Definition bind {A B} (m : Eff A) (k : A -> Eff B) : Eff B :=
  match m with
  | (Ret a, t) => let '(r, t') := k a in (r, t ++ t')
  | (Raise e, t) => (Raise e, t)
  end.

(** [try: body  except Exception as e: handler]. *)
Definition try_except {A} (body : Eff A) (handler : PyExc -> Eff A) : Eff A :=
  match body with
  | (Raise e, t) =>
      if is_Exception e
      then let '(r, t') := handler e in (r, t ++ t')
      else (Raise e, t)
  | (Ret a, t) => (Ret a, t)
  end.

Notation "x <- m ;; k" := (bind m (fun x => k))
  (at level 100, m at next level, right associativity).
Notation "m ;;; k" := (bind m (fun _ => k))
  (at level 100, right associativity).

(** ** The pipeline of [StreamlitChatbot] *)

(** The dict built by [analyze_content], with its four fixed keys. *)
Record Analysis := {
  current_year : Z;
  content_year : option str;
  raw_content : str;
  query : str
}.

(** [d[key]]. *)
Definition getitem (d : Dict) (key : str) : Outcome str :=
  match d !! key with
  | Some v => Ret v
  | None => Raise (KeyError key)
  end.

(** [[result['body'] for result in search_results]]. *)
Fixpoint bodies (search_results : list Dict) : Outcome (list str) :=
  match search_results with
  | [] => Ret []
  | result :: rest =>
      match getitem result (lit "body") with
      | Raise e => Raise e
      | Ret b =>
          match bodies rest with
          | Raise e => Raise e
          | Ret bs => Ret (b :: bs)
          end
      end
  end.

Definition analyze_content (env : Env) (search_results : list Dict)
    (query : str) : Outcome Analysis :=
  match bodies search_results with
  | Raise e => Raise e
  | Ret bs =>
      let combined_content := join (lit " ") bs in
      let latest_year :=
        extract_date_from_content (re_decimal env) (re_word env)
          combined_content in
      Ret {| current_year := now_year env;
             content_year := latest_year;
             raw_content := combined_content;
             query := query |}
  end.

Definition nl : str := [10%N].
Definition dquote : str := [34%N].

Definition create_time_aware_prompt (analysis : Analysis) : str :=
  let current_year := str_of_int (current_year analysis) in
  nl
  ++ lit "        Based on the following information from "
  ++ current_year ++ lit ":" ++ nl
  ++ lit "        " ++ nl
  ++ lit "        " ++ raw_content analysis ++ nl
  ++ lit "        " ++ nl
  ++ lit "        Please provide a factual response about "
  ++ dquote ++ query analysis ++ dquote ++ lit " that:" ++ nl
  ++ lit "        1. Is accurate to the current year ("
  ++ current_year ++ lit ")" ++ nl
  ++ lit "        2. Explicitly mentions relevant dates and timeframes" ++ nl
  ++ lit "        3. Synthesizes information from multiple sources" ++ nl
  ++ lit "        4. Provides context when discussing time-sensitive information"
  ++ nl
  ++ lit "        " ++ nl
  ++ lit "        Format the response as a clear, direct statement." ++ nl
  ++ lit "        ".

Definition has_body (result : Dict) : Prop := is_Some (result !! lit "body").

#[global] Instance has_body_dec (result : Dict) : Decision (has_body result).
Proof. unfold has_body. apply _. Defined.

Definition search_internet (env : Env) (query : str) : Eff (list Dict) :=
  try_except
    (emit (EvSpinner (lit "Searching the web..."));;;
     results <- call (EvSearch query 5) (ddgs_text env query 5);;
     ret (filter has_body results))
    (fun e =>
       emit (EvError (lit "Error searching internet: " ++ exc_str e));;;
       ret []).

Definition model_name : str := lit "llama3.2".

(** The two messages of the search-augmented call. *)
Definition search_messages (analysis : Analysis) : list Message :=
  [ {| role := lit "system";
       content :=
         lit "You are an AI assistant in "
         ++ str_of_int (current_year analysis)
         ++ lit ". Provide accurate, time-aware responses based on the provided information." |};
    {| role := lit "user"; content := create_time_aware_prompt analysis |} ].

(** The two messages of the direct call. *)
Definition direct_messages (query : str) : list Message :=
  [ {| role := lit "system";
       content :=
         lit "You are a helpful AI assistant. Provide direct and engaging responses." |};
    {| role := lit "user"; content := query |} ].

Definition error_reply (e : PyExc) : str :=
  lit "Sorry, there was an error generating a response: " ++ exc_str e.

(** [get_search_response] from the composition of the prompt on: the part
    that runs once an analysis exists. *)
Definition answer_from_analysis (env : Env) (analysis : Analysis) : Eff str :=
  let messages := search_messages analysis in
  try_except
    (emit (EvSpinner (lit "Generating response..."));;;
     ai_response <-
       call (EvChat model_name messages) (ollama_chat env model_name messages);;
     if negb (contains (str_of_int (current_year analysis)) ai_response)
     then ret (lit "As of " ++ str_of_int (current_year analysis) ++ lit ", "
               ++ ai_response)
     else ret ai_response)
    (fun e => ret (error_reply e)).

Definition get_search_response (env : Env) (query : str) : Eff str :=
  search_results <- search_internet env query;;
  match search_results with
  | [] => ret (lit "No search results found.")
  | _ :: _ =>
      analysis <- lift (analyze_content env search_results query);;
      answer_from_analysis env analysis
  end.

Definition get_direct_response (env : Env) (query : str) : Eff str :=
  let messages := direct_messages query in
  try_except
    (emit (EvSpinner (lit "Thinking..."));;;
     call (EvChat model_name messages) (ollama_chat env model_name messages))
    (fun e => ret (error_reply e)).

(** The events of a search that reaches the provider. *)
Definition search_trace (query : str) : list Event :=
  [EvSpinner (lit "Searching the web..."); EvSearch query 5].

(** The events of the search-augmented model call. *)
Definition search_reply_trace (analysis : Analysis) : list Event :=
  [EvSpinner (lit "Generating response...");
   EvChat model_name (search_messages analysis)].

(** The events of the direct model call. *)
Definition direct_trace (query : str) : list Event :=
  [EvSpinner (lit "Thinking..."); EvChat model_name (direct_messages query)].

(** ** The session and one run of the script *)

(** [st.session_state]: the chat history and the submit flag. *)
Record Session := { history : list Message; submit : bool }.

(** The session as [__init__] leaves it the first time. *)
Definition new_session : Session := {| history := []; submit := false |}.

(** The widgets as the user left them when the script runs. *)
Record Widgets := {
  enable_search : bool;
  user_input : str;
  send_clicked : bool;
  clear_clicked : bool
}.

(** How a run of the script ends: [st.rerun()], or the history displayed,
    most recent message first. *)
Inductive RunEnd : Type :=
| Rerun
| Displayed (shown : list Message).

Definition submit_callback (s : Session) : Session :=
  {| history := history s; submit := true |}.

Definition display_chat_history (s : Session) : list Message :=
  rev (history s).

(** The non-empty test [user_input] of the [if]. *)
Definition truthy (s : str) : bool :=
  match s with
  | [] => false
  | _ :: _ => true
  end.

(** The response of one exchange, by mode. *)
Definition respond (env : Env) (w : Widgets) : Eff str :=
  if enable_search w
  then get_search_response env (user_input w)
  else get_direct_response env (user_input w).

Definition run (env : Env) (w : Widgets) (s : Session)
  : Eff (Session * RunEnd) :=
  if submit s && truthy (user_input w)
  then
    response <- respond env w;;
    let history1 :=
      history s ++ [ {| role := lit "user"; content := user_input w |} ] in
    let history2 :=
      history1 ++ [ {| role := lit "assistant"; content := response |} ] in
    ret ({| history := history2; submit := false |}, Rerun)
  else if clear_clicked w
  then ret ({| history := []; submit := submit s |}, Rerun)
  else ret (s, Displayed (display_chat_history s)).

(** One interaction: the click callback, then the script.  An exception
    that escapes the script leaves the session as the callback set it. *)
Definition script_run (env : Env) (w : Widgets) (s : Session) : Session :=
  let s1 := if send_clicked w then submit_callback s else s in
  match run env w s1 with
  | (Ret (s2, _), _) => s2
  | (Raise _, _) => s1
  end.

(** The sessions a user can reach from a fresh one. *)
Inductive reachable : Session -> Prop :=
| reachable_new : reachable new_session
| reachable_run env w s : reachable s -> reachable (script_run env w s).

(** ** The session state before and after [__init__] *)

(** [st.session_state] as a store in which either key may be missing. *)
Record SessionState := {
  st_history : option (list Message);
  st_submit : option bool
}.

(** [__init__]: each key is set only when it is not in the store. *)
Definition init (st : SessionState) : SessionState :=
  let st1 :=
    match st_history st with
    | None => {| st_history := Some []; st_submit := st_submit st |}
    | Some _ => st
    end in
  match st_submit st1 with
  | None => {| st_history := st_history st1; st_submit := Some false |}
  | Some _ => st1
  end.

(** ** What the page shows *)

(** The calls made on the page: [st.markdown(html, unsafe_allow_html=True)]
    and [st.divider()]. *)
Inductive UiEvent : Type :=
| UiMarkdown (html : str)
| UiDivider.

Definition user_markup (content : str) : str :=
  lit "<div style='text-align: left;'><b>You:</b> " ++ content ++ lit "</div>".

Definition ai_markup (content : str) : str :=
  lit "<div style='text-align: right;'><b>AI:</b> <div style='text-align: left; display: inline-block;'>"
  ++ content ++ lit "</div></div>".

(** The body of the loop of [display_chat_history] for one message. *)
Definition show_message (message : Message) : list UiEvent :=
  [ UiMarkdown
      (if bool_decide (role message = lit "user")
       then user_markup (content message)
       else ai_markup (content message));
    UiDivider ].

(** [display_chat_history] as the calls it makes:
    [for message in reversed(st.session_state.history)]. *)
Definition show_chat_history (messages : list Message) : list UiEvent :=
  mjoin (show_message <$> rev messages).

(** The calls of [animate_text]: a frame written to the placeholder, then
    [time.sleep(speed)], for [i] in [range(len(text) + 1)].  The type of
    [speed] is left open. *)
Inductive AnimEvent (F : Type) : Type :=
| AnimShow (html : str)
| AnimSleep (speed : F).

Arguments AnimShow {F} html.
Arguments AnimSleep {F} speed.

Definition animate_text {F : Type} (text : str) (speed : F)
  : list (AnimEvent F) :=
  mjoin ((fun i => [AnimShow (ai_markup (take i text)); AnimSleep speed])
           <$> seq 0 (length text + 1)).

(** The frames among the events of an animation. *)
Definition shown_frames {F : Type} (evs : list (AnimEvent F)) : list str :=
  omap (fun ev => match ev with
                  | AnimShow html => Some html
                  | AnimSleep _ => None
                  end) evs.

(** ** Reading traces and histories *)

Definition is_chat (ev : Event) : bool :=
  match ev with
  | EvChat _ _ => true
  | _ => false
  end.

Definition is_search (ev : Event) : bool :=
  match ev with
  | EvSearch _ _ => true
  | _ => false
  end.

(** The two messages of one exchange: the question and the reply. *)
Definition exchange (p : str * str) : list Message :=
  [ {| role := lit "user"; content := p.1 |};
    {| role := lit "assistant"; content := p.2 |} ].

(** ** A sample world

    A provider that answers every search with [search] and a model that
    answers every chat with [reply], in the year 2026, on ASCII text. *)

Definition sample_results : list Dict :=
  [ {[ lit "title" := lit "Paris 2024";
       lit "body" := lit "Paris hosted the games in 2024." ]};
    {[ lit "title" := lit "No snippet" ]};
    {[ lit "body" := lit "Capital of France since 987." ]} ].

Definition sample_env (search : Outcome (list Dict)) (reply : Outcome str)
  : Env :=
  {| re_decimal := ascii_decimal;
     re_word := ascii_word;
     now_year := 2026;
     ddgs_text := fun _ _ => search;
     ollama_chat := fun _ _ => reply |}.

Definition connection_refused : PyExc :=
  {| is_Exception := true; exc_str := lit "connection refused" |}.

(** [KeyboardInterrupt()]: not an instance of [Exception]. *)
Definition keyboard_interrupt : PyExc :=
  {| is_Exception := false; exc_str := [] |}.

(** Six results with a body, as a provider that ignores [max_results]
    could return them. *)
Definition six_results : list Dict :=
  [ {[ lit "body" := lit "one" ]}; {[ lit "body" := lit "two" ]};
    {[ lit "body" := lit "three" ]}; {[ lit "body" := lit "four" ]};
    {[ lit "body" := lit "five" ]}; {[ lit "body" := lit "six" ]} ].

(** * Properties *)

(** ** Strings *)

Lemma startswith_app (p s : str) : startswith p (p ++ s) = true.
Proof.
  induction p as [|c p IH]; simpl; [reflexivity|].
  rewrite N.eqb_refl. exact IH.
Qed.

Lemma startswith_prefix (p s : str) :
  startswith p s = true -> exists rest, s = p ++ rest.
Proof.
  revert s. induction p as [|c p IH]; intros s H.
  - exists s. reflexivity.
  - destruct s as [|d s]; simpl in H; [discriminate|].
    apply andb_true_iff in H as [Hc Hp].
    apply N.eqb_eq in Hc. subst d.
    destruct (IH _ Hp) as [rest ->]. exists rest. reflexivity.
Qed.

Lemma contains_startswith (sub s : str) :
  startswith sub s = true -> contains sub s = true.
Proof. intros H. destruct s; simpl; rewrite H; reflexivity. Qed.

(** [contains] is the substring relation. *)
Lemma contains_spec (sub s : str) :
  contains sub s = true <-> exists pre post, s = pre ++ sub ++ post.
Proof.
  split.
  - induction s as [|d s IH]; simpl; intros H.
    + rewrite orb_false_r in H. destruct (startswith_prefix _ _ H) as [r Hr].
      exists [], r. exact Hr.
    + apply orb_true_iff in H as [H|H].
      * destruct (startswith_prefix _ _ H) as [r Hr]. exists [], r. exact Hr.
      * destruct (IH H) as (pre & post & ->). exists (d :: pre), post.
        reflexivity.
  - intros (pre & post & ->). induction pre as [|d pre IH].
    + rewrite app_nil_l. apply contains_startswith, startswith_app.
    + simpl. rewrite IH. apply orb_true_r.
Qed.

Lemma contains_middle (pre sub post : str) :
  contains sub (pre ++ sub ++ post) = true.
Proof. apply contains_spec. exists pre, post. reflexivity. Qed.

(** ** Year extraction *)

Section RegexFacts.

Variable is_decimal : N -> bool.
Variable is_word : N -> bool.

Local Abbreviation year_at := (year_pattern_at is_decimal is_word).

Lemma slice4_lookup (text : str) (i : nat) (a b c d : N) :
  text !! i = Some a -> text !! (i + 1) = Some b ->
  text !! (i + 2) = Some c -> text !! (i + 3) = Some d ->
  slice4 text i = [a; b; c; d].
Proof.
  intros Ha Hb Hc Hd. unfold slice4.
  rewrite (drop_S _ _ _ Ha).
  replace (i + 1) with (S i) in Hb by lia.
  rewrite (drop_S _ _ _ Hb).
  replace (i + 2) with (S (S i)) in Hc by lia.
  rewrite (drop_S _ _ _ Hc).
  replace (i + 3) with (S (S (S i))) in Hd by lia.
  rewrite (drop_S _ _ _ Hd).
  reflexivity.
Qed.

Lemma char_is_Some (c : N) (o : option N) :
  char_is c o = true -> o = Some c.
Proof.
  destruct o as [d|]; simpl; [|discriminate].
  intros H. apply N.eqb_eq in H. congruence.
Qed.

Lemma char_in_Some (cls : N -> bool) (o : option N) :
  char_in cls o = true -> exists d, o = Some d /\ cls d = true.
Proof.
  destruct o as [d|]; simpl; [|discriminate]. intros H. eauto.
Qed.

(** What a match of [\b20[12]\d\b] at offset [i] says about the text. *)
Lemma year_pattern_at_inv (text : str) (i : nat) :
  year_at text i = true ->
  exists d1 d2,
    text !! i = Some 50%N /\ text !! (i + 1) = Some 48%N
    /\ text !! (i + 2) = Some d1 /\ (d1 = 49%N \/ d1 = 50%N)
    /\ text !! (i + 3) = Some d2 /\ is_decimal d2 = true
    /\ boundary_at is_word text i = true
    /\ boundary_at is_word text (i + 4) = true.
Proof.
  unfold year_pattern_at. intros H.
  repeat (apply andb_true_iff in H as [H ?]).
  match goal with
  | Hd : char_in is_decimal _ = true |- _ =>
      apply char_in_Some in Hd as (d2 & Hd2 & Hdec)
  end.
  match goal with
  | Ho : (_ || _) = true |- _ => apply orb_true_iff in Ho as [Ho|Ho];
      apply char_is_Some in Ho
  end;
    repeat match goal with
      | Hc : char_is _ _ = true |- _ => apply char_is_Some in Hc
      end;
    eexists _, d2; repeat split; eauto.
Qed.

Lemma year_pattern_at_length (text : str) (i : nat) :
  year_at text i = true -> i + 4 <= length text.
Proof.
  intros H. apply year_pattern_at_inv in H as (d1 & d2 & _ & _ & _ & _ & H & _).
  apply lookup_lt_Some in H. lia.
Qed.

(** A match of the source's pattern is a match of the specification's. *)
Lemma year_pattern_at_spec (text : str) (i : nat) :
  year_at text i = true -> spec_year_at is_decimal text i = true.
Proof.
  intros H.
  apply year_pattern_at_inv in H
    as (d1 & d2 & H0 & H1 & H2 & Hd1 & H3 & Hdec & _).
  unfold spec_year_at. rewrite H0, H1, H2, H3. simpl. rewrite Hdec.
  destruct Hd1; subst d1; reflexivity.
Qed.

(** The scan finds nothing where the pattern matches nowhere ahead. *)
Lemma findall_from_none (m : str -> nat -> bool) (text : str) :
  forall fuel pos,
    (forall i, pos <= i -> m text i = false) ->
    findall_from m fuel pos text = [].
Proof.
  induction fuel as [|fuel IH]; intros pos Hno; simpl; [reflexivity|].
  rewrite (Hno pos) by lia. apply IH. intros i Hi. apply Hno. lia.
Qed.

(** For a pattern whose matches cannot overlap, the scan reports the
    match at every offset, in increasing order: the fuel given by
    [findall] is enough. *)
Lemma findall_from_offsets (m : str -> nat -> bool) (text : str) :
  (forall i, m text i = true -> i + 4 <= length text) ->
  (forall i j, m text i = true -> i < j < i + 4 -> m text j = false) ->
  forall fuel pos,
    pos <= length text -> length text - pos < fuel ->
    findall_from m fuel pos text
    = slice4 text <$> filter (fun i => m text i = true)
                        (seq pos (length text - pos)).
Proof.
  intros Hlen Hapart.
  induction fuel as [|fuel IH]; intros pos Hpos Hfuel; [lia|].
  simpl. destruct (m text pos) eqn:E.
  - pose proof (Hlen _ E) as Hl.
    replace (length text - pos) with (4 + (length text - (pos + 4))) by lia.
    cbn [seq Nat.add].
    rewrite filter_cons_True by exact E.
    rewrite !filter_cons_False
      by (rewrite Hapart with (i := pos); [discriminate|exact E|lia]).
    rewrite fmap_cons. f_equal.
    rewrite IH by lia. do 3 f_equal. lia.
  - destruct (decide (pos = length text)) as [->|Hne].
    + rewrite Nat.sub_diag. simpl.
      apply findall_from_none. intros i Hi.
      destruct (m text i) eqn:Ei; [|reflexivity].
      apply Hlen in Ei. lia.
    + replace (length text - pos) with (S (length text - (pos + 1))) by lia.
      cbn [seq].
      rewrite filter_cons_False by (rewrite E; discriminate).
      rewrite IH by lia. do 3 f_equal. lia.
Qed.

(** The rightmost offset of [match_offsets]. *)
Lemma last_match_offsets (m : str -> nat -> bool) (text : str) (i : nat) :
  last (match_offsets m text) = Some i ->
  m text i = true /\ i < length text
  /\ forall j, i < j -> j < length text -> m text j = false.
Proof.
  unfold match_offsets. generalize (length text) as n.
  induction n as [|n IH]; [discriminate|].
  rewrite seq_S, filter_app. simpl.
  destruct (m text n) eqn:E.
  - rewrite filter_cons_True by exact E. rewrite filter_nil, last_snoc.
    intros [= <-]. repeat split; [exact E|lia|]. intros j ? ?. lia.
  - rewrite filter_cons_False by (rewrite E; discriminate).
    rewrite filter_nil, app_nil_r. intros H.
    destruct (IH H) as (Hm & Hlt & Hafter).
    repeat split; [exact Hm|lia|].
    intros j Hij Hj. destruct (decide (j = n)) as [->|]; [exact E|].
    apply Hafter; lia.
Qed.

Lemma last_match_offsets_None (m : str -> nat -> bool) (text : str) :
  last (match_offsets m text) = None ->
  forall i, i < length text -> m text i = false.
Proof.
  intros H i Hi. apply last_None in H.
  destruct (m text i) eqn:E; [|reflexivity].
  exfalso. eapply filter_nil_not_elem_of; [exact H| |].
  - exact E.
  - apply elem_of_seq. lia.
Qed.

Hypothesis ascii_digits_are_word :
  forall c, (48 <= c <= 57)%N -> is_word c = true.

(** Two matches of [\b20[12]\d\b] never overlap: inside a match every
    character is a word character, so no [\b] holds there. *)
Lemma year_pattern_at_apart (text : str) (i j : nat) :
  year_at text i = true -> i < j < i + 4 -> year_at text j = false.
Proof.
  intros H Hj.
  apply year_pattern_at_inv in H
    as (d1 & d2 & H0 & H1 & H2 & Hd1 & H3 & Hdec & _).
  assert (Hw1 : is_word d1 = true)
    by (apply ascii_digits_are_word; destruct Hd1; subst d1; lia).
  assert (Hw0 : is_word 48%N = true) by (apply ascii_digits_are_word; lia).
  assert (Hw2 : is_word 50%N = true) by (apply ascii_digits_are_word; lia).
  assert (Hcases : j = i + 1 \/ j = i + 2 \/ j = i + 3) by lia.
  unfold year_pattern_at, boundary_at.
  destruct Hcases as [->|[->| ->]].
  - rewrite H1. simpl. rewrite andb_false_r. reflexivity.
  - replace (i + 2) with (S (i + 1)) at 1 by lia. simpl.
    rewrite H1, H2. simpl. rewrite Hw0, Hw1. reflexivity.
  - replace (i + 3) with (S (i + 2)) at 1 by lia. simpl.
    rewrite H2, H3. simpl. rewrite Hw1.
    destruct (N.eqb_spec d2 50) as [->|Hne].
    + rewrite Hw2. reflexivity.
    + rewrite andb_false_r. reflexivity.
Qed.

Lemma findall_year_offsets (text : str) :
  findall year_at text = slice4 text <$> match_offsets year_at text.
Proof.
  unfold findall, match_offsets.
  rewrite findall_from_offsets.
  - rewrite Nat.sub_0_r. reflexivity.
  - apply year_pattern_at_length.
  - apply year_pattern_at_apart.
  - lia.
  - lia.
Qed.

End RegexFacts.

Lemma ascii_word_digits (c : N) : (48 <= c <= 57)%N -> ascii_word c = true.
Proof.
  intros [H1 H2]. unfold ascii_word, ascii_decimal.
  apply N.leb_le in H1. apply N.leb_le in H2. rewrite H1, H2. reflexivity.
Qed.

(** A text has a substring matching the specification's pattern exactly
    when [has_spec_year] says so. *)
Lemma has_spec_year_substring (is_decimal : N -> bool) (text : str) :
  has_spec_year is_decimal text = true <->
  exists pre d1 d2 post,
    text = pre ++ [50; 48; d1; d2]%N ++ post
    /\ (d1 = 48 \/ d1 = 49 \/ d1 = 50)%N /\ is_decimal d2 = true.
Proof.
  unfold has_spec_year. rewrite existsb_exists. split.
  - intros (i & _ & H). unfold spec_year_at in H.
    apply andb_true_iff in H as [H Hd].
    apply andb_true_iff in H as [H Ho].
    apply andb_true_iff in H as [H0 H1].
    apply char_in_Some in Hd as (d2 & Hd2 & Hdec).
    apply char_is_Some in H0. apply char_is_Some in H1.
    assert (exists d1, text !! (i + 2) = Some d1
                       /\ (d1 = 48 \/ d1 = 49 \/ d1 = 50)%N) as (d1 & Hd1 & Hc).
    { apply orb_true_iff in Ho as [Ho|Ho];
        [apply orb_true_iff in Ho as [Ho|Ho]|];
        apply char_is_Some in Ho; eauto. }
    exists (take i text), d1, d2, (drop 4 (drop i text)).
    split; [|split; assumption].
    rewrite <- (slice4_lookup text i _ _ _ _ H0 H1 Hd1 Hd2).
    unfold slice4. rewrite (take_drop 4 (drop i text)), take_drop. reflexivity.
  - intros (pre & d1 & d2 & post & -> & Hd1 & Hdec).
    exists (length pre). split.
    + apply in_seq. rewrite !length_app. simpl. lia.
    + unfold spec_year_at.
      rewrite (lookup_app_r pre _ (length pre)) by lia.
      rewrite (lookup_app_r pre _ (length pre + 1)) by lia.
      rewrite (lookup_app_r pre _ (length pre + 2)) by lia.
      rewrite (lookup_app_r pre _ (length pre + 3)) by lia.
      replace (length pre - length pre) with 0 by lia.
      replace (length pre + 1 - length pre) with 1 by lia.
      replace (length pre + 2 - length pre) with 2 by lia.
      replace (length pre + 3 - length pre) with 3 by lia.
      simpl. rewrite Hdec.
      destruct Hd1 as [->|[->| ->]]; reflexivity.
Qed.

(** C1, as stated, fails: on ["2005"] the specification's pattern
    ("20", a digit in {0,1,2}, a digit) has a match, which is the last one,
    while [extract_date_from_content] returns [None]; on ["x2015"] the year
    follows a word character, so [\b] fails and the result is [None] too. *)
Lemma extract_date_misses_2005 :
  (has_spec_year ascii_decimal (lit "2005") = true
   /\ spec_extractYear ascii_decimal (lit "2005") = Some (lit "2005")
   /\ extract_date_from_content ascii_decimal ascii_word (lit "2005") = None)
  /\ (spec_extractYear ascii_decimal (lit "x2015") = Some (lit "2015")
      /\ extract_date_from_content ascii_decimal ascii_word (lit "x2015")
         = None).
Proof. repeat split; vm_compute; reflexivity. Qed.

(** C1 (amended): for every input string, [extract_date_from_content]
    returns the rightmost match of the pattern [\b20[12]\d\b] -- "20", one
    digit in {1,2}, any decimal digit (years 2010 to 2029), with a word
    boundary on each side -- as a four-character string, and [None] when
    the pattern matches nowhere. *)
Theorem extract_date_rightmost_match
    (is_decimal is_word : N -> bool) (text : str) :
  (forall c, (48 <= c <= 57)%N -> is_word c = true) ->
  match extract_date_from_content is_decimal is_word text with
  | Some y =>
      exists i d1 d2,
        year_pattern_at is_decimal is_word text i = true
        /\ (forall j, i < j -> year_pattern_at is_decimal is_word text j = false)
        /\ y = slice4 text i
        /\ y = [50; 48; d1; d2]%N
        /\ (d1 = 49 \/ d1 = 50)%N /\ is_decimal d2 = true
  | None => forall i, year_pattern_at is_decimal is_word text i = false
  end.
Proof.
  intros Hword. unfold extract_date_from_content.
  rewrite findall_year_offsets by exact Hword.
  rewrite fmap_last.
  destruct (last (match_offsets _ text)) as [i|] eqn:E; simpl.
  - apply last_match_offsets in E as (Hm & Hlt & Hafter).
    destruct (year_pattern_at_inv _ _ _ _ Hm)
      as (d1 & d2 & H0 & H1 & H2 & Hd1 & H3 & Hdec & _).
    exists i, d1, d2. repeat split; try assumption.
    + intros j Hij.
      destruct (year_pattern_at is_decimal is_word text j) eqn:Ej;
        [|reflexivity].
      pose proof (year_pattern_at_length _ _ _ _ Ej).
      rewrite <- Ej. apply Hafter; lia.
    + apply slice4_lookup; assumption.
  - intros i.
    destruct (year_pattern_at is_decimal is_word text i) eqn:Ei;
      [|reflexivity].
    pose proof (year_pattern_at_length _ _ _ _ Ei).
    rewrite <- Ei. eapply last_match_offsets_None; [exact E|lia].
Qed.

Lemma extract_date_rightmost_match_witness :
  match extract_date_from_content ascii_decimal ascii_word
          (lit "...in 2015 and again in 2021...") with
  | Some y =>
      exists i d1 d2,
        year_pattern_at ascii_decimal ascii_word
          (lit "...in 2015 and again in 2021...") i = true
        /\ (forall j, i < j ->
              year_pattern_at ascii_decimal ascii_word
                (lit "...in 2015 and again in 2021...") j = false)
        /\ y = slice4 (lit "...in 2015 and again in 2021...") i
        /\ y = [50; 48; d1; d2]%N
        /\ (d1 = 49 \/ d1 = 50)%N /\ ascii_decimal d2 = true
  | None =>
      forall i,
        year_pattern_at ascii_decimal ascii_word
          (lit "...in 2015 and again in 2021...") i = false
  end.
Proof.
  apply (extract_date_rightmost_match ascii_decimal ascii_word
           (lit "...in 2015 and again in 2021...")).
  exact ascii_word_digits.
Defined.

(** C9: a text with no substring matching [20[0-2]\d] has no year:
    [extract_date_from_content] returns [None]. *)
Theorem extract_date_absent
    (is_decimal is_word : N -> bool) (text : str) :
  has_spec_year is_decimal text = false ->
  extract_date_from_content is_decimal is_word text = None.
Proof.
  intros Hno. unfold extract_date_from_content, findall.
  rewrite findall_from_none; [reflexivity|].
  intros i _.
  destruct (year_pattern_at is_decimal is_word text i) eqn:E; [|reflexivity].
  pose proof (year_pattern_at_length _ _ _ _ E) as Hl.
  apply year_pattern_at_spec in E.
  assert (has_spec_year is_decimal text = true); [|congruence].
  unfold has_spec_year. apply existsb_exists. exists i. split; [|exact E].
  apply in_seq. lia.
Qed.

Lemma extract_date_absent_witness :
  extract_date_from_content ascii_decimal ascii_word
    (lit "founded in 1999, renamed in 2035") = None.
Proof.
  apply (extract_date_absent ascii_decimal ascii_word
           (lit "founded in 1999, renamed in 2035")).
  vm_compute. reflexivity.
Defined.

(** ** Content analysis and prompt composition *)

Lemma bodies_Forall2 (search_results : list Dict) (bs : list str) :
  Forall2 (fun result b => result !! lit "body" = Some b) search_results bs ->
  bodies search_results = Ret bs.
Proof.
  induction 1 as [|result b rest bs Hb _ IH]; simpl; [reflexivity|].
  unfold getitem. rewrite Hb, IH. reflexivity.
Qed.

(** Results that all have a body can be analysed: no [KeyError]. *)
Lemma bodies_has_body (search_results : list Dict) :
  Forall has_body search_results ->
  exists bs,
    Forall2 (fun result b => result !! lit "body" = Some b) search_results bs.
Proof.
  induction 1 as [|result rest [b Hb] _ [bs IH]].
  - exists []. constructor.
  - exists (b :: bs). constructor; assumption.
Qed.

(** C2: for results whose body fields are [bs], in input order,
    [analyze_content] returns the analysis whose raw content is the bodies
    joined by single spaces, whose content year is
    [extract_date_from_content] of that text, whose current year is the
    clock's year, and whose query is the query given. *)
Theorem analyze_content_fields
    (env : Env) (search_results : list Dict) (query : str) (bs : list str) :
  Forall2 (fun result b => result !! lit "body" = Some b) search_results bs ->
  analyze_content env search_results query
  = Ret {| current_year := now_year env;
           content_year :=
             extract_date_from_content (re_decimal env) (re_word env)
               (join (lit " ") bs);
           raw_content := join (lit " ") bs;
           query := query |}.
Proof.
  intros H. unfold analyze_content. rewrite (bodies_Forall2 _ _ H).
  reflexivity.
Qed.

Lemma analyze_content_fields_witness :
  analyze_content (sample_env (Ret []) (Ret []))
    [ {[ lit "body" := lit "Released in 2019." ]};
      {[ lit "body" := lit "Updated in 2023" ]} ]
    (lit "release date")
  = Ret {| current_year := 2026;
           content_year := Some (lit "2023");
           raw_content := lit "Released in 2019. Updated in 2023";
           query := lit "release date" |}.
Proof.
  apply (analyze_content_fields (sample_env (Ret []) (Ret []))
           [ {[ lit "body" := lit "Released in 2019." ]};
             {[ lit "body" := lit "Updated in 2023" ]} ]
           (lit "release date")
           [lit "Released in 2019."; lit "Updated in 2023"]).
  repeat constructor.
Defined.

Lemma contains_here (sub post : str) : contains sub (sub ++ post) = true.
Proof. apply contains_startswith, startswith_app. Qed.

Lemma contains_app_r (sub pre s : str) :
  contains sub s = true -> contains sub (pre ++ s) = true.
Proof.
  intros H. apply contains_spec in H as (a & b & ->).
  apply contains_spec. exists (pre ++ a), b. rewrite <- app_assoc. reflexivity.
Qed.

Ltac find_substring :=
  repeat first [ apply contains_here | apply contains_app_r ].

(** C7: the prompt composed from an analysis contains the decimal string
    of its current year, its raw content and its query. *)
Theorem create_time_aware_prompt_contains (analysis : Analysis) :
  contains (str_of_int (current_year analysis))
    (create_time_aware_prompt analysis) = true
  /\ contains (raw_content analysis) (create_time_aware_prompt analysis) = true
  /\ contains (query analysis) (create_time_aware_prompt analysis) = true.
Proof.
  unfold create_time_aware_prompt. repeat split; find_substring.
Qed.

(** ** The search fetcher *)

Lemma search_internet_Ret (env : Env) (query : str) (rs : list Dict) :
  ddgs_text env query 5 = Ret rs ->
  search_internet env query = (Ret (filter has_body rs), search_trace query).
Proof.
  intros H. unfold search_internet, try_except, bind, emit, call, ret.
  rewrite H. reflexivity.
Qed.

Lemma search_internet_caught (env : Env) (query : str) (e : PyExc) :
  ddgs_text env query 5 = Raise e -> is_Exception e = true ->
  search_internet env query
  = (Ret [],
     search_trace query
     ++ [EvError (lit "Error searching internet: " ++ exc_str e)]).
Proof.
  intros H He. unfold search_internet, try_except, bind, emit, call, ret.
  rewrite H. simpl. rewrite He. reflexivity.
Qed.

Lemma search_internet_escapes (env : Env) (query : str) (e : PyExc) :
  ddgs_text env query 5 = Raise e -> is_Exception e = false ->
  search_internet env query = (Raise e, search_trace query).
Proof.
  intros H He. unfold search_internet, try_except, bind, emit, call, ret.
  rewrite H. simpl. rewrite He. reflexivity.
Qed.

Lemma filter_has_body (rs : list Dict) : Forall has_body (filter has_body rs).
Proof.
  apply Forall_forall. intros d Hd.
  apply list_elem_of_filter in Hd as [Hd _]. exact Hd.
Qed.

(** The fetcher never calls the model. *)
Lemma search_internet_no_chat (env : Env) (query : str)
    (model : str) (messages : list Message) :
  EvChat model messages ∉ (search_internet env query).2.
Proof.
  destruct (ddgs_text env query 5) as [rs|e] eqn:H.
  - rewrite (search_internet_Ret _ _ _ H). simpl.
    intros Hin. repeat (apply elem_of_cons in Hin as [Hin|Hin]; [discriminate|]).
    inversion Hin.
  - destruct (is_Exception e) eqn:He.
    + rewrite (search_internet_caught _ _ _ H He). simpl.
      intros Hin.
      repeat (apply elem_of_cons in Hin as [Hin|Hin]; [discriminate|]).
      inversion Hin.
    + rewrite (search_internet_escapes _ _ _ H He). simpl.
      intros Hin.
      repeat (apply elem_of_cons in Hin as [Hin|Hin]; [discriminate|]).
      inversion Hin.
Qed.

(** C6, as stated, fails: [search_internet] does not truncate what the
    provider returns, so a provider that answers with six results that
    have a body makes it return all six. *)
Lemma search_internet_six_results :
  search_internet (sample_env (Ret six_results) (Ret [])) (lit "paris")
  = (Ret six_results, search_trace (lit "paris"))
  /\ length six_results = 6
  /\ ~ length six_results <= 5.
Proof.
  split; [reflexivity|]. split; [reflexivity|]. simpl. lia.
Qed.

(** C6 (amended): [search_internet] asks the provider for at most 5
    results ([max_results=5]) and, when the provider fails only with
    errors, returns to its caller: the provider's results without those
    lacking a body, in the provider's order, so never more results than
    the provider returned and at most 5 when the provider returned at most
    5; or, after a failure reported through [st.error], none. *)
Theorem search_internet_contract (env : Env) (query : str) :
  (forall e, ddgs_text env query 5 = Raise e -> is_Exception e = true) ->
  exists results t,
    search_internet env query = (Ret results, t)
    /\ Forall has_body results
    /\ EvSearch query 5 ∈ t
    /\ (forall keywords max_results,
          EvSearch keywords max_results ∈ t ->
          keywords = query /\ max_results = 5%Z)
    /\ match ddgs_text env query 5 with
       | Ret rs =>
           results = filter has_body rs
           /\ length results <= length rs
           /\ (length rs <= 5 -> length results <= 5)
           /\ t = search_trace query
       | Raise e =>
           results = []
           /\ t = search_trace query
                  ++ [EvError (lit "Error searching internet: " ++ exc_str e)]
       end.
Proof.
  intros Herr.
  assert (Hin : forall t', EvSearch query 5 ∈ search_trace query ++ t').
  { intros t'. apply elem_of_app. left.
    apply elem_of_cons. right. apply elem_of_cons. left. reflexivity. }
  destruct (ddgs_text env query 5) as [rs|e] eqn:H.
  - exists (filter has_body rs), (search_trace query).
    split; [apply search_internet_Ret; exact H|].
    split; [apply filter_has_body|].
    split; [rewrite <- (app_nil_r (search_trace query)); apply Hin|].
    split.
    + intros keywords max_results Hev.
      repeat (apply elem_of_cons in Hev as [Hev|Hev];
              [try discriminate|]).
      * injection Hev as -> ->. split; reflexivity.
      * inversion Hev.
    + pose proof (length_filter has_body rs).
      split; [reflexivity|]. split; [lia|]. split; [lia|reflexivity].
  - eexists [], _.
    split; [apply search_internet_caught; [exact H|apply Herr; reflexivity]|].
    split; [constructor|].
    split; [apply Hin|].
    split; [|split; reflexivity].
    intros keywords max_results Hev.
    apply elem_of_app in Hev as [Hev|Hev];
      repeat (apply elem_of_cons in Hev as [Hev|Hev];
              [try discriminate|]);
      try (inversion Hev; fail).
    injection Hev as -> ->. split; reflexivity.
Qed.

Lemma search_internet_contract_witness :
  exists results t,
    search_internet (sample_env (Ret sample_results) (Ret [])) (lit "paris")
    = (Ret results, t)
    /\ Forall has_body results
    /\ EvSearch (lit "paris") 5 ∈ t
    /\ (forall keywords max_results,
          EvSearch keywords max_results ∈ t ->
          keywords = lit "paris" /\ max_results = 5%Z)
    /\ results = filter has_body sample_results
    /\ length results <= length sample_results
    /\ (length sample_results <= 5 -> length results <= 5)
    /\ t = search_trace (lit "paris").
Proof.
  apply (search_internet_contract
           (sample_env (Ret sample_results) (Ret [])) (lit "paris")).
  intros e H. discriminate H.
Defined.

(** ** The two completion modes *)

(** [get_search_response] once the fetcher has returned results. *)
Lemma get_search_response_results
    (env : Env) (query : str) (results : list Dict) (t : list Event)
    (analysis : Analysis) :
  search_internet env query = (Ret results, t) -> results <> [] ->
  analyze_content env results query = Ret analysis ->
  get_search_response env query
  = (let '(r, t') := answer_from_analysis env analysis in (r, t ++ t')).
Proof.
  intros Hs Hne Ha. unfold get_search_response, bind at 1. rewrite Hs.
  destruct results as [|r rs]; [contradiction|].
  unfold bind, lift. rewrite Ha.
  destruct (answer_from_analysis env analysis) as [r' t']. reflexivity.
Qed.

Lemma answer_from_analysis_Ret (env : Env) (analysis : Analysis) (out : str) :
  ollama_chat env model_name (search_messages analysis) = Ret out ->
  answer_from_analysis env analysis
  = (Ret (if contains (str_of_int (current_year analysis)) out
          then out
          else lit "As of " ++ str_of_int (current_year analysis)
               ++ lit ", " ++ out),
     search_reply_trace analysis).
Proof.
  intros H. unfold answer_from_analysis, try_except, bind, emit, call, ret.
  rewrite H. simpl.
  destruct (contains (str_of_int (current_year analysis)) out); reflexivity.
Qed.

Lemma answer_from_analysis_caught (env : Env) (analysis : Analysis) (e : PyExc) :
  ollama_chat env model_name (search_messages analysis) = Raise e ->
  is_Exception e = true ->
  answer_from_analysis env analysis
  = (Ret (error_reply e), search_reply_trace analysis).
Proof.
  intros H He. unfold answer_from_analysis, try_except, bind, emit, call, ret.
  rewrite H. simpl. rewrite He. reflexivity.
Qed.

(** What the fetcher returns can always be analysed: [analyze_content]
    raises no [KeyError] in [get_search_response]. *)
Lemma search_results_analysed
    (env : Env) (query : str) (results : list Dict) (t : list Event) :
  search_internet env query = (Ret results, t) ->
  exists analysis, analyze_content env results query = Ret analysis.
Proof.
  intros Hs.
  assert (Hb : Forall has_body results).
  { destruct (ddgs_text env query 5) as [rs|e] eqn:H.
    - rewrite (search_internet_Ret _ _ _ H) in Hs. injection Hs as <- _.
      apply filter_has_body.
    - destruct (is_Exception e) eqn:He.
      + rewrite (search_internet_caught _ _ _ H He) in Hs.
        injection Hs as <- _. constructor.
      + rewrite (search_internet_escapes _ _ _ H He) in Hs. discriminate. }
  destruct (bodies_has_body _ Hb) as [bs Hbs].
  unfold analyze_content. rewrite (bodies_Forall2 _ _ Hbs). eauto.
Qed.

(** C3: in search-augmented mode, when the model returns [out], the
    response is [out] itself if it contains the decimal string of the
    current year, and otherwise [out] with "As of {current_year}, " put in
    front, so that it starts with that prefix. *)
Theorem get_search_response_year_prefix
    (env : Env) (query : str) (results : list Dict) (t : list Event)
    (analysis : Analysis) (out : str) :
  search_internet env query = (Ret results, t) -> results <> [] ->
  analyze_content env results query = Ret analysis ->
  ollama_chat env model_name (search_messages analysis) = Ret out ->
  let year := str_of_int (current_year analysis) in
  exists response,
    get_search_response env query
    = (Ret response, t ++ search_reply_trace analysis)
    /\ current_year analysis = now_year env
    /\ (contains year out = false ->
        response = lit "As of " ++ year ++ lit ", " ++ out
        /\ startswith (lit "As of " ++ year ++ lit ", ") response = true)
    /\ (contains year out = true -> response = out).
Proof.
  intros Hs Hne Ha Hout year.
  rewrite (get_search_response_results _ _ _ _ _ Hs Hne Ha).
  rewrite (answer_from_analysis_Ret _ _ _ Hout). fold year.
  eexists. split; [reflexivity|]. split.
  - unfold analyze_content in Ha.
    destruct (bodies results); [|discriminate].
    injection Ha as <-. reflexivity.
  - split; intros Hc; rewrite Hc; [split; [reflexivity|]|reflexivity].
    rewrite !app_assoc. apply startswith_app.
Qed.

Lemma get_search_response_year_prefix_witness :
  exists response,
    get_search_response
      (sample_env (Ret sample_results) (Ret (lit "Paris is the capital.")))
      (lit "capital of France")
    = (Ret response,
       search_trace (lit "capital of France")
       ++ search_reply_trace
            {| current_year := 2026;
               content_year := Some (lit "2024");
               raw_content :=
                 lit "Paris hosted the games in 2024. Capital of France since 987.";
               query := lit "capital of France" |})
    /\ 2026%Z = 2026%Z
    /\ (contains (lit "2026") (lit "Paris is the capital.") = false ->
        response = lit "As of 2026, Paris is the capital."
        /\ startswith (lit "As of 2026, ") response = true)
    /\ (contains (lit "2026") (lit "Paris is the capital.") = true ->
        response = lit "Paris is the capital.").
Proof.
  apply (get_search_response_year_prefix
           (sample_env (Ret sample_results) (Ret (lit "Paris is the capital.")))
           (lit "capital of France")
           (filter has_body sample_results)
           (search_trace (lit "capital of France"))
           {| current_year := 2026;
              content_year := Some (lit "2024");
              raw_content :=
                lit "Paris hosted the games in 2024. Capital of France since 987.";
              query := lit "capital of France" |}
           (lit "Paris is the capital.")).
  - reflexivity.
  - vm_compute. discriminate.
  - vm_compute. reflexivity.
  - reflexivity.
Defined.

(** C4: when the fetcher returns no results, [get_search_response]
    returns exactly "No search results found." and its trace, which is the
    fetcher's, holds no call of the model. *)
Theorem get_search_response_no_results
    (env : Env) (query : str) (t : list Event) :
  search_internet env query = (Ret [], t) ->
  get_search_response env query = (Ret (lit "No search results found."), t)
  /\ forall model messages,
       EvChat model messages ∉ (get_search_response env query).2.
Proof.
  intros Hs.
  assert (Hg : get_search_response env query
               = (Ret (lit "No search results found."), t)).
  { unfold get_search_response, bind, ret. rewrite Hs.
    rewrite app_nil_r. reflexivity. }
  split; [exact Hg|].
  intros model messages. rewrite Hg. simpl.
  pose proof (search_internet_no_chat env query model messages) as Hno.
  rewrite Hs in Hno. exact Hno.
Qed.

Lemma get_search_response_no_results_witness :
  get_search_response (sample_env (Ret []) (Ret (lit "unused"))) (lit "zzz")
  = (Ret (lit "No search results found."), search_trace (lit "zzz"))
  /\ forall model messages,
       EvChat model messages
       ∉ (get_search_response (sample_env (Ret []) (Ret (lit "unused")))
            (lit "zzz")).2.
Proof.
  apply (get_search_response_no_results
           (sample_env (Ret []) (Ret (lit "unused"))) (lit "zzz")
           (search_trace (lit "zzz"))).
  reflexivity.
Defined.

(** C5: in both modes an error raised by the model call is not
    propagated: the function returns
    "Sorry, there was an error generating a response: {e}". *)
Theorem completion_error_reply (env : Env) (query : str) (e : PyExc) :
  is_Exception e = true ->
  (ollama_chat env model_name (direct_messages query) = Raise e ->
   get_direct_response env query
   = (Ret (lit "Sorry, there was an error generating a response: "
           ++ exc_str e),
      direct_trace query))
  /\ (forall results t analysis,
        search_internet env query = (Ret results, t) -> results <> [] ->
        analyze_content env results query = Ret analysis ->
        ollama_chat env model_name (search_messages analysis) = Raise e ->
        get_search_response env query
        = (Ret (lit "Sorry, there was an error generating a response: "
                ++ exc_str e),
           t ++ search_reply_trace analysis)).
Proof.
  intros He. split.
  - intros H. unfold get_direct_response, try_except, bind, emit, call, ret.
    rewrite H. simpl. rewrite He. reflexivity.
  - intros results t analysis Hs Hne Ha H.
    rewrite (get_search_response_results _ _ _ _ _ Hs Hne Ha).
    rewrite (answer_from_analysis_caught _ _ _ H He). reflexivity.
Qed.

Lemma completion_error_reply_witness :
  get_direct_response
    (sample_env (Ret sample_results) (Raise connection_refused)) (lit "hello")
  = (Ret (lit "Sorry, there was an error generating a response: connection refused"),
     direct_trace (lit "hello"))
  /\ (get_search_response
        (sample_env (Ret sample_results) (Raise connection_refused))
        (lit "hello")).1
     = Ret (lit "Sorry, there was an error generating a response: connection refused").
Proof.
  destruct (completion_error_reply
              (sample_env (Ret sample_results) (Raise connection_refused))
              (lit "hello") connection_refused eq_refl) as [Hd Hs].
  split.
  - apply Hd. reflexivity.
  - rewrite (Hs (filter has_body sample_results) (search_trace (lit "hello"))
               {| current_year := 2026;
                  content_year := Some (lit "2024");
                  raw_content :=
                    lit "Paris hosted the games in 2024. Capital of France since 987.";
                  query := lit "hello" |}).
    + reflexivity.
    + reflexivity.
    + vm_compute. discriminate.
    + vm_compute. reflexivity.
    + reflexivity.
Defined.

(** C10: the content year of an analysis is not used after it is
    computed: the prompt and the whole answer built from an analysis do not
    depend on it, and the response of [get_search_response] is the same
    whatever tables the year extraction runs on. *)
Theorem content_year_unused (env : Env) (a1 a2 : Analysis) :
  current_year a1 = current_year a2 ->
  raw_content a1 = raw_content a2 ->
  query a1 = query a2 ->
  create_time_aware_prompt a1 = create_time_aware_prompt a2
  /\ answer_from_analysis env a1 = answer_from_analysis env a2
  /\ forall (dec' word' : N -> bool) (q : str),
       get_search_response env q
       = get_search_response
           {| re_decimal := dec'; re_word := word';
              now_year := now_year env;
              ddgs_text := ddgs_text env;
              ollama_chat := ollama_chat env |} q.
Proof.
  intros Hy Hr Hq.
  assert (Hanswer : forall env' b1 b2,
             current_year b1 = current_year b2 ->
             raw_content b1 = raw_content b2 ->
             query b1 = query b2 ->
             ollama_chat env' = ollama_chat env ->
             answer_from_analysis env' b1 = answer_from_analysis env b2).
  { intros env' [y1 c1 r1 q1] [y2 c2 r2 q2]. simpl.
    intros -> -> -> Hchat.
    unfold answer_from_analysis, search_messages, create_time_aware_prompt.
    simpl. rewrite Hchat. reflexivity. }
  split; [|split].
  - destruct a1, a2. simpl in *. subst.
    unfold create_time_aware_prompt. reflexivity.
  - apply Hanswer; auto.
  - intros dec' word' q. unfold get_search_response.
    change (search_internet
              {| re_decimal := dec'; re_word := word';
                 now_year := now_year env; ddgs_text := ddgs_text env;
                 ollama_chat := ollama_chat env |} q)
      with (search_internet env q).
    destruct (search_internet env q) as [[results|e] t]; [|reflexivity].
    unfold bind at 1 3. destruct results as [|r rs]; [reflexivity|].
    unfold analyze_content. cbn [re_decimal re_word now_year].
    destruct (bodies (r :: rs)) as [bs|e]; [|reflexivity].
    unfold bind, lift.
    rewrite (Hanswer
               {| re_decimal := dec'; re_word := word';
                  now_year := now_year env; ddgs_text := ddgs_text env;
                  ollama_chat := ollama_chat env |}
               {| current_year := now_year env;
                  content_year :=
                    extract_date_from_content dec' word' (join (lit " ") bs);
                  raw_content := join (lit " ") bs; query := q |}
               {| current_year := now_year env;
                  content_year :=
                    extract_date_from_content (re_decimal env) (re_word env)
                      (join (lit " ") bs);
                  raw_content := join (lit " ") bs; query := q |}
               eq_refl eq_refl eq_refl eq_refl).
    reflexivity.
Qed.

Lemma content_year_unused_witness :
  create_time_aware_prompt
    {| current_year := 2026; content_year := Some (lit "2024");
       raw_content := lit "Paris hosted the games in 2024.";
       query := lit "games" |}
  = create_time_aware_prompt
      {| current_year := 2026; content_year := None;
         raw_content := lit "Paris hosted the games in 2024.";
         query := lit "games" |}
  /\ answer_from_analysis (sample_env (Ret []) (Ret (lit "In 2024.")))
       {| current_year := 2026; content_year := Some (lit "2024");
          raw_content := lit "Paris hosted the games in 2024.";
          query := lit "games" |}
     = answer_from_analysis (sample_env (Ret []) (Ret (lit "In 2024.")))
         {| current_year := 2026; content_year := None;
            raw_content := lit "Paris hosted the games in 2024.";
            query := lit "games" |}.
Proof.
  destruct (content_year_unused
              (sample_env (Ret []) (Ret (lit "In 2024.")))
              {| current_year := 2026; content_year := Some (lit "2024");
                 raw_content := lit "Paris hosted the games in 2024.";
                 query := lit "games" |}
              {| current_year := 2026; content_year := None;
                 raw_content := lit "Paris hosted the games in 2024.";
                 query := lit "games" |}
              eq_refl eq_refl eq_refl) as (Hp & Ha & _).
  split; [exact Hp|exact Ha].
Defined.

(** ** The transcript *)

Lemma run_exchange (env : Env) (w : Widgets) (s : Session)
    (response : str) (t : list Event) :
  submit s = true -> user_input w <> [] ->
  respond env w = (Ret response, t) ->
  run env w s
  = (Ret ({| history :=
               history s
               ++ [ {| role := lit "user"; content := user_input w |};
                    {| role := lit "assistant"; content := response |} ];
             submit := false |}, Rerun), t).
Proof.
  intros Hsub Hin Hr. unfold run. rewrite Hsub.
  destruct (user_input w) as [|c u] eqn:Hu; [contradiction|].
  simpl. unfold bind, ret. rewrite Hr. rewrite app_nil_r, <- app_assoc.
  reflexivity.
Qed.

Lemma run_clear (env : Env) (w : Widgets) (s : Session) :
  submit s && truthy (user_input w) = false -> clear_clicked w = true ->
  run env w s = (Ret ({| history := []; submit := submit s |}, Rerun), []).
Proof. intros Hno Hc. unfold run. rewrite Hno, Hc. reflexivity. Qed.

(** One interaction leaves the history as it was, empties it, or appends
    a user message and an assistant message. *)
Lemma script_run_history (env : Env) (w : Widgets) (s : Session) :
  history (script_run env w s) = history s
  \/ history (script_run env w s) = []
  \/ exists response,
       history (script_run env w s)
       = history s
         ++ [ {| role := lit "user"; content := user_input w |};
              {| role := lit "assistant"; content := response |} ].
Proof.
  unfold script_run.
  set (s1 := if send_clicked w then submit_callback s else s).
  assert (Hh : history s1 = history s)
    by (unfold s1; destruct (send_clicked w); reflexivity).
  unfold run.
  destruct (submit s1 && truthy (user_input w)).
  - unfold bind, ret. destruct (respond env w) as [[response|e] t]; simpl.
    + right. right. exists response. rewrite Hh, <- app_assoc. reflexivity.
    + left. exact Hh.
  - destruct (clear_clicked w); simpl.
    + right. left. reflexivity.
    + left. exact Hh.
Qed.

(** C8: a completed exchange appends the user message and then the
    assistant message to the history; the history of every reachable
    session has even length; the clear action empties the history whatever
    it held. *)
Theorem transcript_pairs_and_clear :
  (forall env w s response t,
      submit s = true -> user_input w <> [] ->
      respond env w = (Ret response, t) ->
      run env w s
      = (Ret ({| history :=
                   history s
                   ++ [ {| role := lit "user"; content := user_input w |};
                        {| role := lit "assistant"; content := response |} ];
                 submit := false |}, Rerun), t)
      /\ length (history (script_run env w s)) = length (history s) + 2)
  /\ (forall s, reachable s -> Nat.even (length (history s)) = true)
  /\ (forall env w s,
        submit s && truthy (user_input w) = false -> clear_clicked w = true ->
        run env w s = (Ret ({| history := []; submit := submit s |}, Rerun), [])
        /\ (send_clicked w = false -> history (script_run env w s) = [])).
Proof.
  split; [|split].
  - intros env w s response t Hsub Hin Hr.
    split; [apply run_exchange; assumption|].
    unfold script_run.
    assert (Hs1 : (if send_clicked w then submit_callback s else s) = s).
    { destruct (send_clicked w); [|reflexivity].
      destruct s as [h b]. simpl in Hsub. subst b. reflexivity. }
    rewrite Hs1, (run_exchange _ _ _ _ _ Hsub Hin Hr). simpl.
    rewrite length_app. simpl. lia.
  - induction 1 as [|env w s _ IH]; [reflexivity|].
    destruct (script_run_history env w s) as [H|[H|[response H]]];
      rewrite H; [exact IH|reflexivity|].
    rewrite length_app. simpl.
    replace (length (history s) + 2) with (S (S (length (history s)))) by lia.
    exact IH.
  - intros env w s Hno Hc. split; [apply run_clear; assumption|].
    intros Hsend. unfold script_run. rewrite Hsend.
    rewrite (run_clear _ _ _ Hno Hc). reflexivity.
Qed.

Lemma transcript_pairs_and_clear_witness :
  length
    (history
       (script_run (sample_env (Ret []) (Ret (lit "Paris.")))
          {| enable_search := false;
             user_input := lit "What is the capital of France?";
             send_clicked := true; clear_clicked := false |}
          {| history := []; submit := true |})) = 2
  /\ history
       (script_run (sample_env (Ret []) (Ret (lit "Paris.")))
          {| enable_search := false; user_input := [];
             send_clicked := false; clear_clicked := true |}
          {| history :=
               [ {| role := lit "user"; content := lit "hi" |};
                 {| role := lit "assistant"; content := lit "hello" |} ];
             submit := false |}) = [].
Proof.
  destruct transcript_pairs_and_clear as (Hex & _ & Hclear).
  split.
  - apply (Hex (sample_env (Ret []) (Ret (lit "Paris.")))
             {| enable_search := false;
                user_input := lit "What is the capital of France?";
                send_clicked := true; clear_clicked := false |}
             {| history := []; submit := true |}
             (lit "Paris.")
             (direct_trace (lit "What is the capital of France?"))).
    + reflexivity.
    + vm_compute. discriminate.
    + reflexivity.
  - apply (Hclear (sample_env (Ret []) (Ret (lit "Paris.")))
             {| enable_search := false; user_input := [];
                send_clicked := false; clear_clicked := true |}
             {| history :=
                  [ {| role := lit "user"; content := lit "hi" |};
                    {| role := lit "assistant"; content := lit "hello" |} ];
                submit := false |}).
    + reflexivity.
    + reflexivity.
    + reflexivity.
Defined.

(** * Further properties of the code *)

(** ** Year extraction: what a match is and where matches come from *)

Section YearFacts.

Variable is_decimal : N -> bool.
Variable is_word : N -> bool.

Local Abbreviation year_at := (year_pattern_at is_decimal is_word).

(** Every string reported by the scan is the slice at an offset where the
    pattern matches. *)
Lemma findall_from_elem (m : str -> nat -> bool) (text : str) (y : str) :
  forall fuel pos,
    y ∈ findall_from m fuel pos text ->
    exists i, m text i = true /\ y = slice4 text i.
Proof.
  induction fuel as [|fuel IH]; intros pos Hy; simpl in Hy.
  - inversion Hy.
  - destruct (m text pos) eqn:E.
    + apply elem_of_cons in Hy as [->|Hy]; [eauto|]. eapply IH; exact Hy.
    + eapply IH; exact Hy.
Qed.

Lemma slice4_occurs (text : str) (i : nat) :
  contains (slice4 text i) text = true.
Proof.
  apply contains_spec. exists (take i text), (drop 4 (drop i text)).
  unfold slice4. rewrite (take_drop 4 (drop i text)), take_drop. reflexivity.
Qed.

(** The pattern reads the text only through the character before the
    offset, the four characters at it and the character after them. *)
Lemma year_pattern_at_ext (t1 t2 : str) (i1 i2 : nat) :
  word_before is_word t1 i1 = word_before is_word t2 i2 ->
  (forall k, k <= 3 -> t1 !! (i1 + k) = t2 !! (i2 + k)) ->
  char_in is_word (t1 !! (i1 + 4)) = char_in is_word (t2 !! (i2 + 4)) ->
  year_at t1 i1 = year_at t2 i2.
Proof.
  intros Hb Hk Ha. unfold year_pattern_at, boundary_at.
  replace (i1 + 4) with (S (i1 + 3)) at 1 by lia.
  replace (i2 + 4) with (S (i2 + 3)) at 1 by lia.
  simpl. rewrite Hb, Ha.
  pose proof (Hk 0) as H0. rewrite !Nat.add_0_r in H0.
  rewrite H0, (Hk 1), (Hk 2), (Hk 3) by lia. reflexivity.
Qed.

Lemma year_pattern_at_slice (t1 t2 : str) (i1 i2 : nat) :
  (forall k, k <= 3 -> t1 !! (i1 + k) = t2 !! (i2 + k)) ->
  year_at t2 i2 = true ->
  slice4 t1 i1 = slice4 t2 i2.
Proof.
  intros Hk H.
  apply year_pattern_at_inv in H
    as (d1 & d2 & H0 & H1 & H2 & _ & H3 & _).
  rewrite (slice4_lookup t2 i2 _ _ _ _ H0 H1 H2 H3).
  apply slice4_lookup.
  - pose proof (Hk 0) as E. rewrite !Nat.add_0_r in E. rewrite E by lia.
    exact H0.
  - rewrite (Hk 1) by lia. exact H1.
  - rewrite (Hk 2) by lia. exact H2.
  - rewrite (Hk 3) by lia. exact H3.
Qed.

Hypothesis ascii_digits_are_word :
  forall c, (48 <= c <= 57)%N -> is_word c = true.
Hypothesis space_not_word : is_word 32 = false.
Hypothesis space_not_decimal : is_decimal 32 = false.

(** In [a ++ " " ++ b] the offsets inside [a] match as they do in [a]. *)
Lemma year_at_left (a b : str) (i : nat) :
  i < length a ->
  year_at (a ++ 32%N :: b) i = year_at a i.
Proof.
  intros Hi. destruct (decide (i + 4 <= length a)) as [Hfit|Hcut].
  - apply year_pattern_at_ext.
    + destruct i as [|j]; simpl; [reflexivity|].
      rewrite lookup_app_l by lia. reflexivity.
    + intros k Hk. rewrite lookup_app_l by lia. reflexivity.
    + destruct (decide (i + 4 < length a)) as [Hlt|Hge].
      * rewrite lookup_app_l by lia. reflexivity.
      * replace (i + 4) with (length a) by lia.
        rewrite list_lookup_middle by reflexivity.
        rewrite (lookup_ge_None_2 a) by lia. simpl. exact space_not_word.
  - assert (Ha : year_at a i = false).
    { destruct (year_at a i) eqn:E; [|reflexivity].
      apply year_pattern_at_length in E. lia. }
    rewrite Ha.
    destruct (year_at (a ++ 32%N :: b) i) eqn:E; [|reflexivity].
    exfalso.
    apply year_pattern_at_inv in E
      as (d1 & d2 & _ & H1 & H2 & Hd1 & H3 & Hdec & _).
    assert (Hsp : (a ++ 32%N :: b) !! length a = Some 32%N)
      by (apply list_lookup_middle; reflexivity).
    assert (Hc : length a = i + 1 \/ length a = i + 2 \/ length a = i + 3)
      by lia.
    destruct Hc as [Hc|[Hc|Hc]]; rewrite Hc in Hsp.
    + rewrite H1 in Hsp. discriminate.
    + rewrite H2 in Hsp. injection Hsp as ->. destruct Hd1; discriminate.
    + rewrite H3 in Hsp. injection Hsp as ->.
      rewrite space_not_decimal in Hdec. discriminate.
Qed.

Lemma lookup_after_space (a b : str) (j : nat) :
  (a ++ 32%N :: b) !! (length a + 1 + j) = b !! j.
Proof.
  rewrite lookup_app_r by lia.
  replace (length a + 1 + j - length a) with (S j) by lia. reflexivity.
Qed.

(** In [a ++ " " ++ b] the offsets inside [b] match as they do in [b]. *)
Lemma year_at_right (a b : str) (j : nat) :
  year_at (a ++ 32%N :: b) (length a + 1 + j) = year_at b j.
Proof.
  apply year_pattern_at_ext.
  - destruct j as [|j']; simpl.
    + replace (length a + 1 + 0) with (S (length a)) by lia. simpl.
      rewrite list_lookup_middle by reflexivity. simpl. exact space_not_word.
    + replace (length a + 1 + S j') with (S (length a + 1 + j')) by lia.
      simpl. rewrite lookup_after_space. reflexivity.
  - intros k _. rewrite <- Nat.add_assoc. apply lookup_after_space.
  - rewrite <- Nat.add_assoc. rewrite lookup_after_space. reflexivity.
Qed.

Lemma year_at_space (a b : str) :
  year_at (a ++ 32%N :: b) (length a) = false.
Proof.
  unfold year_pattern_at.
  rewrite (list_lookup_middle a b 32%N (length a)) by reflexivity.
  simpl. rewrite andb_false_r. reflexivity.
Qed.

Lemma slices_left (a b : str) (l : list nat) :
  Forall (fun i => i < length a) l ->
  slice4 (a ++ 32%N :: b)
    <$> filter (fun i => year_at (a ++ 32%N :: b) i = true) l
  = slice4 a <$> filter (fun i => year_at a i = true) l.
Proof.
  induction 1 as [|i l Hi _ IH]; [reflexivity|].
  rewrite !filter_cons, (year_at_left a b i Hi).
  destruct (decide (year_at a i = true)) as [E|E]; [|exact IH].
  rewrite !fmap_cons, IH. f_equal.
  apply year_pattern_at_slice; [|exact E].
  intros k Hk. pose proof (year_pattern_at_length _ _ _ _ E).
  apply lookup_app_l. lia.
Qed.

Lemma slices_right (a b : str) (l : list nat) :
  slice4 (a ++ 32%N :: b)
    <$> filter (fun i => year_at (a ++ 32%N :: b) i = true)
          (Nat.add (length a + 1) <$> l)
  = slice4 b <$> filter (fun i => year_at b i = true) l.
Proof.
  induction l as [|j l IH]; [reflexivity|].
  rewrite fmap_cons, !filter_cons, (year_at_right a b j).
  destruct (decide (year_at b j = true)) as [E|E]; [|exact IH].
  rewrite !fmap_cons, IH. f_equal.
  apply year_pattern_at_slice; [|exact E].
  intros k _. rewrite <- Nat.add_assoc. apply lookup_after_space.
Qed.

(** The years found in two texts joined by a space are the years of the
    first followed by the years of the second. *)
Lemma findall_space (a b : str) :
  findall year_at (a ++ 32%N :: b) = findall year_at a ++ findall year_at b.
Proof.
  rewrite !findall_year_offsets by exact ascii_digits_are_word.
  unfold match_offsets.
  rewrite length_app. simpl length.
  replace (length a + S (length b)) with (length a + (1 + length b)) by lia.
  rewrite seq_app, filter_app, fmap_app. f_equal.
  - apply slices_left. apply Forall_forall. intros i Hi.
    apply elem_of_seq in Hi. lia.
  - simpl seq. rewrite filter_cons_False
      by (simpl; rewrite year_at_space; discriminate).
    rewrite <- (slices_right a b).
    rewrite fmap_add_seq. do 3 f_equal. lia.
Qed.

Lemma findall_join (bs : list str) :
  findall year_at (join [32%N] bs) = mjoin (findall year_at <$> bs).
Proof.
  induction bs as [|p [|q rest] IH].
  - reflexivity.
  - simpl. rewrite app_nil_r. reflexivity.
  - change (join [32%N] (p :: q :: rest))
      with (p ++ 32%N :: join [32%N] (q :: rest)).
    rewrite findall_space, IH. reflexivity.
Qed.

End YearFacts.

(** X1: a year returned by [extract_date_from_content] is four characters
    long and occurs in the text. *)
Theorem extract_date_occurs
    (is_decimal is_word : N -> bool) (text y : str) :
  extract_date_from_content is_decimal is_word text = Some y ->
  length y = 4 /\ contains y text = true.
Proof.
  unfold extract_date_from_content, findall. intros H.
  apply last_Some_elem_of in H.
  apply findall_from_elem in H as (i & Hm & ->).
  split; [|apply slice4_occurs].
  apply year_pattern_at_inv in Hm as (d1 & d2 & H0 & H1 & H2 & _ & H3 & _).
  rewrite (slice4_lookup _ _ _ _ _ _ H0 H1 H2 H3). reflexivity.
Qed.

Lemma extract_date_occurs_witness :
  length (lit "2021") = 4
  /\ contains (lit "2021") (lit "in 2015 and again in 2021.") = true.
Proof.
  apply (extract_date_occurs ascii_decimal ascii_word
           (lit "in 2015 and again in 2021.") (lit "2021")).
  vm_compute. reflexivity.
Defined.

(** X2: on ASCII text, where [\d] is [0-9], a year returned by
    [extract_date_from_content] is the decimal string of a number from 2010
    to 2029. *)
Theorem extract_date_ascii_range
    (is_decimal is_word : N -> bool) (text y : str) :
  (forall c, (c < 128)%N -> is_decimal c = ascii_decimal c) ->
  Forall (fun c => (c < 128)%N) text ->
  extract_date_from_content is_decimal is_word text = Some y ->
  exists n, (2010 <= n <= 2029)%Z /\ y = str_of_int n.
Proof.
  intros Htab Hascii H.
  unfold extract_date_from_content, findall in H.
  apply last_Some_elem_of in H.
  apply findall_from_elem in H as (i & Hm & ->).
  apply year_pattern_at_inv in Hm
    as (d1 & d2 & H0 & H1 & H2 & Hd1 & H3 & Hdec & _).
  rewrite (slice4_lookup _ _ _ _ _ _ H0 H1 H2 H3).
  assert (Hlt : (d2 < 128)%N).
  { rewrite Forall_forall in Hascii. apply Hascii.
    eapply list_elem_of_lookup_2. exact H3. }
  rewrite (Htab _ Hlt) in Hdec. unfold ascii_decimal in Hdec.
  apply andb_true_iff in Hdec as [Hlo Hhi].
  apply N.leb_le in Hlo. apply N.leb_le in Hhi.
  exists (2000 + 10 * (Z.of_N d1 - 48) + (Z.of_N d2 - 48))%Z.
  split; [destruct Hd1; subst d1; lia|].
  assert (Hd2 : (d2 = 48 \/ d2 = 49 \/ d2 = 50 \/ d2 = 51 \/ d2 = 52
                 \/ d2 = 53 \/ d2 = 54 \/ d2 = 55 \/ d2 = 56 \/ d2 = 57)%N)
    by lia.
  destruct Hd1 as [-> | ->];
    repeat (destruct Hd2 as [-> | Hd2]; [vm_compute; reflexivity|]);
    subst d2; vm_compute; reflexivity.
Qed.

Lemma extract_date_ascii_range_witness :
  exists n, (2010 <= n <= 2029)%Z /\ lit "2021" = str_of_int n.
Proof.
  apply (extract_date_ascii_range ascii_decimal ascii_word
           (lit "in 2015 and again in 2021.") (lit "2021")).
  - intros c _. reflexivity.
  - vm_compute. repeat constructor.
  - vm_compute. reflexivity.
Defined.

(** X3: a match of the year pattern is a whole word: the character before
    it, if any, and the character after it, if any, are not word
    characters. *)
Theorem year_match_delimited
    (is_decimal is_word : N -> bool) (text : str) (i : nat) :
  (forall c, (48 <= c <= 57)%N -> is_word c = true) ->
  (forall c, is_decimal c = true -> is_word c = true) ->
  year_pattern_at is_decimal is_word text i = true ->
  word_before is_word text i = false
  /\ char_in is_word (text !! (i + 4)) = false.
Proof.
  intros Hword Hdw Hm.
  apply year_pattern_at_inv in Hm
    as (d1 & d2 & H0 & _ & _ & _ & H3 & Hdec & Hb & He).
  unfold boundary_at in Hb, He.
  rewrite H0 in Hb. simpl in Hb. rewrite Hword in Hb by lia.
  replace (i + 4) with (S (i + 3)) in He at 1 by lia. simpl in He.
  rewrite H3 in He. simpl in He. rewrite (Hdw _ Hdec) in He.
  split.
  - destruct (word_before is_word text i); [discriminate|reflexivity].
  - destruct (char_in is_word (text !! (i + 4))); [discriminate|reflexivity].
Qed.

Lemma ascii_decimal_word (c : N) : ascii_decimal c = true -> ascii_word c = true.
Proof. intros H. unfold ascii_word. rewrite H. reflexivity. Qed.

Lemma year_match_delimited_witness :
  word_before ascii_word (lit "since 2015, yearly") 6 = false
  /\ char_in ascii_word (lit "since 2015, yearly" !! (6 + 4)) = false.
Proof.
  apply (year_match_delimited ascii_decimal ascii_word
           (lit "since 2015, yearly") 6).
  - exact ascii_word_digits.
  - exact ascii_decimal_word.
  - vm_compute. reflexivity.
Defined.

(** X4: the years [analyze_content] sees in the combined content are the
    years of the bodies, body after body; so the content year is the last
    year of the last body that has one. *)
Theorem content_year_of_bodies
    (env : Env) (search_results : list Dict) (query : str) (bs : list str) :
  (forall c, (48 <= c <= 57)%N -> re_word env c = true) ->
  re_word env 32 = false ->
  re_decimal env 32 = false ->
  Forall2 (fun result b => result !! lit "body" = Some b) search_results bs ->
  exists analysis,
    analyze_content env search_results query = Ret analysis
    /\ content_year analysis
       = last (mjoin (findall (year_pattern_at (re_decimal env) (re_word env))
                        <$> bs))
    /\ forall front b, bs = front ++ [b] ->
         content_year analysis
         = match extract_date_from_content (re_decimal env) (re_word env) b with
           | Some y => Some y
           | None =>
               extract_date_from_content (re_decimal env) (re_word env)
                 (join (lit " ") front)
           end.
Proof.
  intros Hword Hsw Hsd Hb.
  unfold analyze_content. rewrite (bodies_Forall2 _ _ Hb).
  eexists. split; [reflexivity|]. simpl.
  unfold extract_date_from_content.
  change (lit " ") with [32%N].
  split.
  - rewrite findall_join by assumption. reflexivity.
  - intros front b ->.
    rewrite !findall_join by assumption.
    rewrite fmap_app, join_app. simpl. rewrite app_nil_r, last_app.
    reflexivity.
Qed.

Lemma content_year_of_bodies_witness :
  exists analysis,
    analyze_content (sample_env (Ret []) (Ret []))
      [ {[ lit "body" := lit "Founded in 2012, moved in 2019." ]};
        {[ lit "body" := lit "No date here." ]} ]
      (lit "history")
    = Ret analysis
    /\ content_year analysis = Some (lit "2019").
Proof.
  destruct (content_year_of_bodies (sample_env (Ret []) (Ret []))
              [ {[ lit "body" := lit "Founded in 2012, moved in 2019." ]};
                {[ lit "body" := lit "No date here." ]} ]
              (lit "history")
              [lit "Founded in 2012, moved in 2019."; lit "No date here."]
              ascii_word_digits eq_refl eq_refl)
    as (analysis & Ha & Hy & _).
  - repeat constructor.
  - exists analysis. split; [exact Ha|]. rewrite Hy. vm_compute. reflexivity.
Defined.

(** ** The pipeline: failures, calls made and what reaches the model *)

(** X5: [analyze_content] on results of which one has no ['body'] raises
    [KeyError('body')]. *)
Theorem analyze_content_missing_body
    (env : Env) (search_results : list Dict) (query : str) :
  Exists (fun result => result !! lit "body" = None) search_results ->
  analyze_content env search_results query = Raise (KeyError (lit "body")).
Proof.
  intros H. unfold analyze_content.
  assert (Hb : bodies search_results = Raise (KeyError (lit "body"))).
  { induction H as [result rest Hnone|result rest _ IH]; simpl; unfold getitem.
    - rewrite Hnone. reflexivity.
    - destruct (result !! lit "body"); [|reflexivity].
      rewrite IH. reflexivity. }
  rewrite Hb. reflexivity.
Qed.

Lemma analyze_content_missing_body_witness :
  analyze_content (sample_env (Ret []) (Ret [])) sample_results (lit "paris")
  = Raise (KeyError (lit "body")).
Proof.
  apply (analyze_content_missing_body
           (sample_env (Ret []) (Ret [])) sample_results (lit "paris")).
  apply Exists_cons_tl, Exists_cons_hd. reflexivity.
Defined.

Lemma answer_from_analysis_escapes (env : Env) (analysis : Analysis) (e : PyExc) :
  ollama_chat env model_name (search_messages analysis) = Raise e ->
  is_Exception e = false ->
  answer_from_analysis env analysis = (Raise e, search_reply_trace analysis).
Proof.
  intros H He. unfold answer_from_analysis, try_except, bind, emit, call, ret.
  rewrite H. simpl. rewrite He. reflexivity.
Qed.

(** The model call of the search mode: its events, and what it can raise. *)
Lemma answer_from_analysis_cases (env : Env) (analysis : Analysis) :
  (answer_from_analysis env analysis).2 = search_reply_trace analysis
  /\ forall e, (answer_from_analysis env analysis).1 = Raise e ->
               is_Exception e = false.
Proof.
  destruct (ollama_chat env model_name (search_messages analysis))
    as [out|e] eqn:H.
  - rewrite (answer_from_analysis_Ret _ _ _ H). split; [reflexivity|].
    intros e He. discriminate He.
  - destruct (is_Exception e) eqn:He.
    + rewrite (answer_from_analysis_caught _ _ _ H He).
      split; [reflexivity|]. intros e' He'. discriminate He'.
    + rewrite (answer_from_analysis_escapes _ _ _ H He).
      split; [reflexivity|]. intros e' [= <-]. exact He.
Qed.

(** The direct mode: its events, and what it can raise. *)
Lemma get_direct_response_cases (env : Env) (query : str) :
  (get_direct_response env query).2 = direct_trace query
  /\ forall e, (get_direct_response env query).1 = Raise e ->
               is_Exception e = false.
Proof.
  unfold get_direct_response, try_except, bind, emit, call, ret.
  destruct (ollama_chat env model_name (direct_messages query)) as [out|e].
  - split; [reflexivity|]. intros e He. discriminate He.
  - simpl. destruct (is_Exception e) eqn:He.
    + split; [reflexivity|]. intros e' He'. discriminate He'.
    + split; [reflexivity|]. intros e' [= <-]. exact He.
Qed.

(** The fetcher: its events, and what it can raise. *)
Lemma search_internet_cases (env : Env) (query : str) :
  (exists rs, ddgs_text env query 5 = Ret rs
              /\ search_internet env query
                 = (Ret (filter has_body rs), search_trace query))
  \/ (exists e, ddgs_text env query 5 = Raise e /\ is_Exception e = true
                /\ search_internet env query
                   = (Ret [],
                      search_trace query
                      ++ [EvError (lit "Error searching internet: "
                                   ++ exc_str e)]))
  \/ (exists e, ddgs_text env query 5 = Raise e /\ is_Exception e = false
                /\ search_internet env query = (Raise e, search_trace query)).
Proof.
  destruct (ddgs_text env query 5) as [rs|e] eqn:H.
  - left. exists rs. split; [reflexivity|]. apply search_internet_Ret, H.
  - destruct (is_Exception e) eqn:He.
    + right. left. exists e. repeat split; [exact He|].
      apply search_internet_caught; assumption.
    + right. right. exists e. repeat split; [exact He|].
      apply search_internet_escapes; assumption.
Qed.

(** The three ways [get_search_response] goes. *)
Lemma get_search_response_cases (env : Env) (query : str) :
  (exists t, search_internet env query = (Ret [], t)
             /\ get_search_response env query
                = (Ret (lit "No search results found."), t))
  \/ (exists e, is_Exception e = false
                /\ get_search_response env query
                   = (Raise e, search_trace query))
  \/ (exists results t analysis,
         search_internet env query = (Ret results, t) /\ results <> []
         /\ analyze_content env results query = Ret analysis
         /\ get_search_response env query
            = (let '(r, t') := answer_from_analysis env analysis in
               (r, t ++ t'))).
Proof.
  destruct (search_internet env query) as [[results|e] t] eqn:Hs.
  - destruct results as [|r rs].
    + left. exists t. split; [reflexivity|].
      unfold get_search_response, bind, ret. rewrite Hs, app_nil_r.
      reflexivity.
    + right. right.
      destruct (search_results_analysed _ _ _ _ Hs) as [analysis Ha].
      exists (r :: rs), t, analysis. repeat split; [discriminate|exact Ha|].
      eapply get_search_response_results; [exact Hs|discriminate|exact Ha].
  - right. left.
    destruct (search_internet_cases env query)
      as [(rs & _ & H)|[(e' & _ & _ & H)|(e' & _ & He & H)]];
      rewrite H in Hs; try discriminate.
    injection Hs as <- <-. exists e'. split; [exact He|].
    unfold get_search_response, bind. rewrite H. reflexivity.
Qed.

(** X6: when the provider fails with an error, [get_search_response]
    reports it through [st.error], answers "No search results found." and
    does not call the model. *)
Theorem search_failure_no_results (env : Env) (query : str) (e : PyExc) :
  ddgs_text env query 5 = Raise e -> is_Exception e = true ->
  get_search_response env query
  = (Ret (lit "No search results found."),
     search_trace query
     ++ [EvError (lit "Error searching internet: " ++ exc_str e)]).
Proof.
  intros H He. unfold get_search_response, bind, ret.
  rewrite (search_internet_caught _ _ _ H He), app_nil_r. reflexivity.
Qed.

Lemma search_failure_no_results_witness :
  get_search_response
    (sample_env (Raise connection_refused) (Ret (lit "unused"))) (lit "paris")
  = (Ret (lit "No search results found."),
     search_trace (lit "paris")
     ++ [EvError (lit "Error searching internet: connection refused")]).
Proof.
  apply (search_failure_no_results
           (sample_env (Raise connection_refused) (Ret (lit "unused")))
           (lit "paris") connection_refused).
  - reflexivity.
  - reflexivity.
Defined.

(** X7: when no result of the provider has a ['body'],
    [get_search_response] answers "No search results found." and does not
    call the model. *)
Theorem bodyless_results_no_results
    (env : Env) (query : str) (rs : list Dict) :
  ddgs_text env query 5 = Ret rs ->
  Forall (fun result => result !! lit "body" = None) rs ->
  get_search_response env query
  = (Ret (lit "No search results found."), search_trace query).
Proof.
  intros H Hnone. unfold get_search_response, bind, ret.
  rewrite (search_internet_Ret _ _ _ H).
  assert (Hf : filter has_body rs = []).
  { clear H. induction Hnone as [|r rest Hr _ IH]; [reflexivity|].
    rewrite filter_cons_False; [exact IH|].
    unfold has_body. rewrite Hr. intros [v Hv]. discriminate. }
  rewrite Hf. reflexivity.
Qed.

Lemma bodyless_results_no_results_witness :
  get_search_response
    (sample_env (Ret [ {[ lit "title" := lit "No snippet" ]} ])
       (Ret (lit "unused")))
    (lit "paris")
  = (Ret (lit "No search results found."), search_trace (lit "paris")).
Proof.
  apply (bodyless_results_no_results
           (sample_env (Ret [ {[ lit "title" := lit "No snippet" ]} ])
              (Ret (lit "unused")))
           (lit "paris") [ {[ lit "title" := lit "No snippet" ]} ]).
  - reflexivity.
  - repeat constructor.
Defined.

(** X8: whatever the collaborators do, an exception that leaves
    [get_search_response] or [get_direct_response] is not an instance of
    [Exception]: every error is turned into a reply. *)
Theorem respond_raises_no_error (env : Env) (w : Widgets) (e : PyExc) :
  (respond env w).1 = Raise e -> is_Exception e = false.
Proof.
  unfold respond. destruct (enable_search w).
  - destruct (get_search_response_cases env (user_input w))
      as [(t & _ & H)|[(e' & He' & H)|(rs & t & a & _ & _ & _ & H)]];
      rewrite H.
    + discriminate.
    + intros [= <-]. exact He'.
    + destruct (answer_from_analysis_cases env a) as [_ Hr].
      destruct (answer_from_analysis env a) as [r t']. simpl in *.
      exact (Hr e).
  - apply get_direct_response_cases.
Qed.

Lemma respond_raises_no_error_witness :
  is_Exception keyboard_interrupt = false.
Proof.
  apply (respond_raises_no_error
           (sample_env (Ret sample_results) (Raise keyboard_interrupt))
           {| enable_search := true; user_input := lit "paris";
              send_clicked := true; clear_clicked := false |}
           keyboard_interrupt).
  vm_compute. reflexivity.
Defined.

Lemma search_internet_counts (env : Env) (query : str) :
  List.filter is_chat (search_internet env query).2 = []
  /\ length (List.filter is_search (search_internet env query).2) = 1.
Proof.
  destruct (search_internet_cases env query)
    as [(rs & _ & H)|[(e & _ & _ & H)|(e & _ & _ & H)]];
    rewrite H; split; reflexivity.
Qed.

(** X9: one exchange calls the model at most once and the search provider
    at most once: nothing is retried. *)
Theorem respond_calls_once (env : Env) (w : Widgets) :
  length (List.filter is_chat (respond env w).2) <= 1
  /\ length (List.filter is_search (respond env w).2) <= 1.
Proof.
  unfold respond. destruct (enable_search w).
  - destruct (search_internet_counts env (user_input w)) as [Hc Hs].
    destruct (get_search_response_cases env (user_input w))
      as [(t & Ht & H)|[(e' & _ & H)|(rs & t & a & Ht & _ & _ & H)]];
      rewrite H.
    + rewrite Ht in Hc, Hs. simpl in *. rewrite Hc, Hs. simpl. lia.
    + simpl. lia.
    + rewrite Ht in Hc, Hs. simpl in Hc, Hs.
      destruct (answer_from_analysis_cases env a) as [Htr _].
      destruct (answer_from_analysis env a) as [r t']. simpl in Htr.
      subst t'. simpl. rewrite !List.filter_app, !length_app, Hc, Hs.
      simpl. lia.
  - destruct (get_direct_response_cases env (user_input w)) as [Htr _].
    rewrite Htr. simpl. lia.
Qed.

(** X10: with the search toggle off, a run of the script never calls the
    search provider. *)
Theorem direct_mode_never_searches (env : Env) (w : Widgets) (s : Session) :
  enable_search w = false ->
  List.filter is_search (run env w s).2 = [].
Proof.
  intros Hoff. unfold run.
  destruct (submit s && truthy (user_input w)).
  - unfold respond. rewrite Hoff.
    destruct (get_direct_response_cases env (user_input w)) as [Htr _].
    unfold bind, ret.
    destruct (get_direct_response env (user_input w)) as [[r|e] t];
      simpl in Htr; subst t; reflexivity.
  - destruct (clear_clicked w); reflexivity.
Qed.

Lemma direct_mode_never_searches_witness :
  List.filter is_search
    (run (sample_env (Ret sample_results) (Ret (lit "Paris.")))
       {| enable_search := false;
          user_input := lit "What is the capital of France?";
          send_clicked := true; clear_clicked := false |}
       {| history := []; submit := true |}).2 = [].
Proof.
  apply (direct_mode_never_searches
           (sample_env (Ret sample_results) (Ret (lit "Paris.")))
           {| enable_search := false;
              user_input := lit "What is the capital of France?";
              send_clicked := true; clear_clicked := false |}
           {| history := []; submit := true |}).
  reflexivity.
Defined.

Lemma contains_trans (a b c : str) :
  contains a b = true -> contains b c = true -> contains a c = true.
Proof.
  intros Hab Hbc.
  apply contains_spec in Hab as (p1 & q1 & ->).
  apply contains_spec in Hbc as (p2 & q2 & ->).
  apply contains_spec. exists (p2 ++ p1), (q1 ++ q2).
  rewrite <- !app_assoc. reflexivity.
Qed.

Lemma contains_refl (a : str) : contains a a = true.
Proof. apply contains_spec. exists [], []. rewrite app_nil_r. reflexivity. Qed.

Lemma contains_join (sep b : str) (bs : list str) :
  b ∈ bs -> contains b (join sep bs) = true.
Proof.
  induction bs as [|p [|q rest] IH]; intros Hb.
  - inversion Hb.
  - apply list_elem_of_singleton in Hb as ->. apply contains_refl.
  - change (join sep (p :: q :: rest))
      with (p ++ sep ++ join sep (q :: rest)).
    apply elem_of_cons in Hb as [->|Hb]; [apply contains_here|].
    apply contains_app_r, contains_app_r, IH, Hb.
Qed.

(** X11: when the model answers in search mode, the response contains the
    decimal string of the current year, whether the model wrote it or the
    prefix brought it. *)
Theorem search_response_mentions_year
    (env : Env) (query : str) (results : list Dict) (t : list Event)
    (analysis : Analysis) (out : str) :
  search_internet env query = (Ret results, t) -> results <> [] ->
  analyze_content env results query = Ret analysis ->
  ollama_chat env model_name (search_messages analysis) = Ret out ->
  exists response,
    (get_search_response env query).1 = Ret response
    /\ contains (str_of_int (now_year env)) response = true.
Proof.
  intros Hs Hne Ha Hout.
  rewrite (get_search_response_results _ _ _ _ _ Hs Hne Ha).
  rewrite (answer_from_analysis_Ret _ _ _ Hout).
  assert (Hy : current_year analysis = now_year env).
  { unfold analyze_content in Ha. destruct (bodies results); [|discriminate].
    injection Ha as <-. reflexivity. }
  rewrite Hy. eexists. split; [reflexivity|].
  destruct (contains (str_of_int (now_year env)) out) eqn:E; [exact E|].
  apply contains_app_r, contains_here.
Qed.

Lemma search_response_mentions_year_witness :
  exists response,
    (get_search_response
       (sample_env (Ret sample_results) (Ret (lit "Paris is the capital.")))
       (lit "capital of France")).1 = Ret response
    /\ contains (lit "2026") response = true.
Proof.
  apply (search_response_mentions_year
           (sample_env (Ret sample_results) (Ret (lit "Paris is the capital.")))
           (lit "capital of France")
           (filter has_body sample_results)
           (search_trace (lit "capital of France"))
           {| current_year := 2026;
              content_year := Some (lit "2024");
              raw_content :=
                lit "Paris hosted the games in 2024. Capital of France since 987.";
              query := lit "capital of France" |}
           (lit "Paris is the capital.")).
  - reflexivity.
  - vm_compute. discriminate.
  - vm_compute. reflexivity.
  - reflexivity.
Defined.

Lemma bodies_elem (results : list Dict) (bs : list str)
    (result : Dict) (b : str) :
  bodies results = Ret bs -> result ∈ results ->
  result !! lit "body" = Some b -> b ∈ bs.
Proof.
  revert bs. induction results as [|r rest IH]; intros bs Hb Hin Hl.
  - inversion Hin.
  - simpl in Hb. unfold getitem in Hb.
    destruct (r !! lit "body") as [v|] eqn:Hv; [|discriminate].
    destruct (bodies rest) as [vs|] eqn:Hvs; [|discriminate].
    injection Hb as <-.
    apply elem_of_cons in Hin as [->|Hin].
    + rewrite Hl in Hv. injection Hv as ->. apply elem_of_cons. left.
      reflexivity.
    + apply elem_of_cons. right. eapply IH; eauto.
Qed.

(** X12: in search mode every body the provider returned, and the query,
    reach the model: [get_search_response] calls [ollama.chat] with a user
    message that contains them. *)
Theorem bodies_reach_model
    (env : Env) (q : str) (rs : list Dict) (result : Dict) (b : str) :
  ddgs_text env q 5 = Ret rs ->
  result ∈ rs -> result !! lit "body" = Some b ->
  exists system prompt,
    EvChat model_name
      [ {| role := lit "system"; content := system |};
        {| role := lit "user"; content := prompt |} ]
    ∈ (get_search_response env q).2
    /\ contains b prompt = true
    /\ contains q prompt = true.
Proof.
  intros H Hin Hb.
  pose proof (search_internet_Ret _ _ _ H) as Hs.
  assert (Hin' : result ∈ filter has_body rs).
  { apply list_elem_of_filter. split; [|exact Hin].
    unfold has_body. rewrite Hb. eauto. }
  assert (Hne : filter has_body rs <> []).
  { intros E. rewrite E in Hin'. inversion Hin'. }
  destruct (search_results_analysed _ _ _ _ Hs) as [analysis Ha].
  rewrite (get_search_response_results _ _ _ _ _ Hs Hne Ha).
  destruct (answer_from_analysis_cases env analysis) as [Htr _].
  destruct (answer_from_analysis env analysis) as [r t']. simpl in Htr.
  subst t'. simpl.
  eexists _, (create_time_aware_prompt analysis). split; [|split].
  - do 3 (apply elem_of_cons; right). apply elem_of_cons. left. reflexivity.
  - unfold analyze_content in Ha.
    destruct (bodies (filter has_body rs)) as [bs|] eqn:Hbs; [|discriminate].
    injection Ha as <-.
    apply contains_trans with (b := join (lit " ") bs).
    + apply contains_join. eapply bodies_elem; eauto.
    + unfold create_time_aware_prompt.
      cbn [raw_content query current_year]. find_substring.
  - unfold analyze_content in Ha.
    destruct (bodies (filter has_body rs)) as [bs|]; [|discriminate].
    injection Ha as <-.
    unfold create_time_aware_prompt.
    cbn [raw_content query current_year]. find_substring.
Qed.

Lemma bodies_reach_model_witness :
  exists system prompt,
    EvChat model_name
      [ {| role := lit "system"; content := system |};
        {| role := lit "user"; content := prompt |} ]
    ∈ (get_search_response
         (sample_env (Ret sample_results) (Ret (lit "Paris.")))
         (lit "capital of France")).2
    /\ contains (lit "Capital of France since 987.") prompt = true
    /\ contains (lit "capital of France") prompt = true.
Proof.
  apply (bodies_reach_model
           (sample_env (Ret sample_results) (Ret (lit "Paris.")))
           (lit "capital of France") sample_results
           {[ lit "body" := lit "Capital of France since 987." ]}
           (lit "Capital of France since 987.")).
  - reflexivity.
  - apply elem_of_cons. right. apply elem_of_cons. right.
    apply elem_of_cons. left. reflexivity.
  - reflexivity.
Defined.

(** ** The session across runs of the script *)

(** X13: [__init__] leaves both keys in the session state, keeps a
    history and a submit flag that were there, starts the others at [[]]
    and [False], and changes nothing when it runs again. *)
Theorem init_keeps_session (st : SessionState) :
  exists h b,
    init st = {| st_history := Some h; st_submit := Some b |}
    /\ h = default [] (st_history st)
    /\ b = default false (st_submit st)
    /\ init (init st) = init st.
Proof.
  destruct st as [[h|] [b|]]; simpl; eauto 10.
Qed.

(** One interaction, with the input that made an exchange. *)
Lemma script_run_steps (env : Env) (w : Widgets) (s : Session) :
  history (script_run env w s) = history s
  \/ history (script_run env w s) = []
  \/ (user_input w <> []
      /\ exists response,
           history (script_run env w s)
           = history s ++ exchange (user_input w, response)).
Proof.
  unfold script_run.
  set (s1 := if send_clicked w then submit_callback s else s).
  assert (Hh : history s1 = history s)
    by (unfold s1; destruct (send_clicked w); reflexivity).
  unfold run.
  destruct (submit s1 && truthy (user_input w)) eqn:Hc.
  - apply andb_true_iff in Hc as [_ Hin].
    unfold bind, ret. destruct (respond env w) as [[response|e] t]; simpl.
    + right. right. split.
      * intros E. rewrite E in Hin. discriminate.
      * exists response. rewrite Hh, <- app_assoc. reflexivity.
    + left. exact Hh.
  - destruct (clear_clicked w); simpl.
    + right. left. reflexivity.
    + left. exact Hh.
Qed.

(** X14: the history of every reachable session is a sequence of
    exchanges: a user message with a non-empty content, each followed by
    one assistant message. *)
Theorem reachable_history_exchanges (s : Session) :
  reachable s ->
  exists pairs : list (str * str),
    history s = mjoin (exchange <$> pairs)
    /\ Forall (fun p => p.1 <> []) pairs.
Proof.
  induction 1 as [|env w s _ (pairs & Hh & Hne)].
  - exists []. split; [reflexivity|constructor].
  - destruct (script_run_steps env w s) as [H|[H|(Hin & response & H)]].
    + exists pairs. rewrite H. split; assumption.
    + exists []. rewrite H. split; [reflexivity|constructor].
    + exists (pairs ++ [(user_input w, response)]). split.
      * rewrite H, Hh, fmap_app, join_app. reflexivity.
      * apply Forall_app. split; [exact Hne|]. repeat constructor. exact Hin.
Qed.

Lemma reachable_history_exchanges_witness :
  exists pairs : list (str * str),
    history
      (script_run (sample_env (Ret []) (Ret (lit "Paris.")))
         {| enable_search := false;
            user_input := lit "What is the capital of France?";
            send_clicked := true; clear_clicked := false |}
         new_session)
    = mjoin (exchange <$> pairs)
    /\ Forall (fun p => p.1 <> []) pairs.
Proof.
  apply (reachable_history_exchanges
           (script_run (sample_env (Ret []) (Ret (lit "Paris.")))
              {| enable_search := false;
                 user_input := lit "What is the capital of France?";
                 send_clicked := true; clear_clicked := false |}
              new_session)).
  apply reachable_run, reachable_new.
Defined.

(** X15: a completed exchange resets the submit flag, so the rerun that
    follows, with no new click, calls no collaborator, displays the history
    and leaves the session as it is: the exchange is not repeated. *)
Theorem exchange_not_repeated
    (env env' : Env) (w w' : Widgets) (s : Session)
    (response : str) (t : list Event) :
  submit s = true -> user_input w <> [] ->
  respond env w = (Ret response, t) ->
  send_clicked w' = false -> clear_clicked w' = false ->
  submit (script_run env w s) = false
  /\ run env' w' (script_run env w s)
     = (Ret (script_run env w s,
             Displayed (display_chat_history (script_run env w s))), [])
  /\ script_run env' w' (script_run env w s) = script_run env w s.
Proof.
  intros Hsub Hin Hr Hsend Hclear.
  assert (Hs1 : (if send_clicked w then submit_callback s else s) = s).
  { destruct (send_clicked w); [|reflexivity].
    destruct s as [h b]. simpl in Hsub. subst b. reflexivity. }
  assert (Hs' : script_run env w s
                = {| history := history s ++ exchange (user_input w, response);
                     submit := false |}).
  { unfold script_run. rewrite Hs1, (run_exchange _ _ _ _ _ Hsub Hin Hr).
    reflexivity. }
  rewrite Hs'. split; [reflexivity|].
  assert (Hrun : run env' w'
                   {| history := history s ++ exchange (user_input w, response);
                      submit := false |}
                 = (Ret ({| history :=
                              history s ++ exchange (user_input w, response);
                            submit := false |},
                         Displayed
                           (display_chat_history
                              {| history :=
                                   history s
                                   ++ exchange (user_input w, response);
                                 submit := false |})), [])).
  { unfold run. simpl. rewrite Hclear. reflexivity. }
  split; [exact Hrun|].
  unfold script_run. rewrite Hsend, Hrun. reflexivity.
Qed.

Lemma exchange_not_repeated_witness :
  submit
    (script_run (sample_env (Ret []) (Ret (lit "Paris.")))
       {| enable_search := false; user_input := lit "capital?";
          send_clicked := true; clear_clicked := false |}
       {| history := []; submit := true |}) = false
  /\ script_run (sample_env (Ret []) (Ret (lit "Paris.")))
       {| enable_search := false; user_input := [];
          send_clicked := false; clear_clicked := false |}
       (script_run (sample_env (Ret []) (Ret (lit "Paris.")))
          {| enable_search := false; user_input := lit "capital?";
             send_clicked := true; clear_clicked := false |}
          {| history := []; submit := true |})
     = script_run (sample_env (Ret []) (Ret (lit "Paris.")))
         {| enable_search := false; user_input := lit "capital?";
            send_clicked := true; clear_clicked := false |}
         {| history := []; submit := true |}.
Proof.
  destruct (exchange_not_repeated
              (sample_env (Ret []) (Ret (lit "Paris.")))
              (sample_env (Ret []) (Ret (lit "Paris.")))
              {| enable_search := false; user_input := lit "capital?";
                 send_clicked := true; clear_clicked := false |}
              {| enable_search := false; user_input := [];
                 send_clicked := false; clear_clicked := false |}
              {| history := []; submit := true |}
              (lit "Paris.") (direct_trace (lit "capital?")))
    as (H1 & _ & H3).
  - reflexivity.
  - vm_compute. discriminate.
  - reflexivity.
  - reflexivity.
  - reflexivity.
  - split; [exact H1|exact H3].
Defined.

(** X16: with an empty input a run of the script calls no collaborator and
    adds nothing to the history, and a click on Send leaves the submit flag
    set. *)
Theorem empty_input_no_exchange (env : Env) (w : Widgets) (s : Session) :
  user_input w = [] ->
  (run env w s).2 = []
  /\ (history (script_run env w s) = history s
      \/ history (script_run env w s) = [])
  /\ (send_clicked w = true -> submit (script_run env w s) = true).
Proof.
  intros Hin.
  assert (Hrun : forall s0,
             run env w s0
             = if clear_clicked w
               then (Ret ({| history := []; submit := submit s0 |}, Rerun), [])
               else (Ret (s0, Displayed (display_chat_history s0)), [])).
  { intros s0. unfold run. rewrite Hin. simpl. rewrite andb_false_r.
    destruct (clear_clicked w); reflexivity. }
  split; [rewrite Hrun; destruct (clear_clicked w); reflexivity|].
  unfold script_run. rewrite Hrun.
  destruct (clear_clicked w), (send_clicked w); simpl; split; auto;
    intros; try reflexivity; discriminate.
Qed.

Lemma empty_input_no_exchange_witness :
  (run (sample_env (Ret sample_results) (Ret (lit "Paris.")))
     {| enable_search := true; user_input := [];
        send_clicked := true; clear_clicked := false |}
     new_session).2 = []
  /\ submit
       (script_run (sample_env (Ret sample_results) (Ret (lit "Paris.")))
          {| enable_search := true; user_input := [];
             send_clicked := true; clear_clicked := false |}
          new_session) = true.
Proof.
  destruct (empty_input_no_exchange
              (sample_env (Ret sample_results) (Ret (lit "Paris.")))
              {| enable_search := true; user_input := [];
                 send_clicked := true; clear_clicked := false |}
              new_session eq_refl) as (H1 & _ & H3).
  split; [exact H1|apply H3; reflexivity].
Defined.

(** ** What the page shows *)

Lemma show_chat_history_app (h1 h2 : list Message) :
  show_chat_history (h1 ++ h2) = show_chat_history h2 ++ show_chat_history h1.
Proof.
  unfold show_chat_history. rewrite rev_app_distr, fmap_app, join_app.
  reflexivity.
Qed.

(** X17: [display_chat_history] shows the newest message first: the
    history is rendered in reverse, one markdown block and one divider per
    message, so after an exchange the reply comes first, as an AI block,
    then the question, as a user block, then what was there before. *)
Theorem show_chat_history_newest_first
    (h1 h2 : list Message) (question reply : str) :
  show_chat_history (h1 ++ h2) = show_chat_history h2 ++ show_chat_history h1
  /\ length (show_chat_history h1) = 2 * length h1
  /\ show_chat_history (h1 ++ exchange (question, reply))
     = [ UiMarkdown (ai_markup reply); UiDivider;
         UiMarkdown (user_markup question); UiDivider ]
       ++ show_chat_history h1.
Proof.
  split; [apply show_chat_history_app|]. split.
  - induction h1 as [|m h IH]; [reflexivity|].
    change (m :: h) with ([m] ++ h).
    rewrite show_chat_history_app, length_app, IH. simpl. lia.
  - rewrite show_chat_history_app. reflexivity.
Qed.

Lemma shown_frames_join {F : Type} (f : nat -> str) (speed : F) (l : list nat) :
  shown_frames (mjoin ((fun i => [AnimShow (f i); AnimSleep speed]) <$> l))
  = f <$> l.
Proof.
  unfold shown_frames.
  induction l as [|i l IH]; [reflexivity|].
  change (i :: l) with ([i] ++ l).
  rewrite !fmap_app, join_app, omap_app, IH. reflexivity.
Qed.

(** In a sequence of frame-and-sleep pairs, pair [k] sits at the events
    [2k] and [2k+1]. *)
Lemma frame_sleep_lookup {F : Type} (f : nat -> str) (speed : F)
    (l : list nat) (k j : nat) :
  l !! k = Some j ->
  mjoin ((fun i => [AnimShow (f i); AnimSleep speed]) <$> l) !! (2 * k)
  = Some (AnimShow (f j))
  /\ mjoin ((fun i => [AnimShow (f i); AnimSleep speed]) <$> l) !! (2 * k + 1)
     = Some (AnimSleep speed).
Proof.
  revert k. induction l as [|i l IH]; intros k Hk; [discriminate|].
  change (i :: l) with ([i] ++ l). rewrite fmap_app, join_app.
  destruct k as [|k].
  - injection Hk as ->. split; reflexivity.
  - replace (2 * S k) with (S (S (2 * k))) by lia.
    replace (S (S (2 * k)) + 1) with (S (S (2 * k + 1))) by lia.
    apply (IH k Hk).
Qed.

(** X18: [animate_text] writes [len(text) + 1] frames, each followed by
    one sleep: event [2i] is the frame showing the first [i] characters and
    event [2i+1] is the sleep after it; so the first frame is empty and the
    last one shows the whole text. *)
Theorem animate_text_frames {F : Type} (text : str) (speed : F) :
  length (animate_text text speed) = 2 * (length text + 1)
  /\ length (shown_frames (animate_text text speed)) = length text + 1
  /\ (forall i, i <= length text ->
        shown_frames (animate_text text speed) !! i
        = Some (ai_markup (take i text)))
  /\ last (shown_frames (animate_text text speed)) = Some (ai_markup text)
  /\ (forall i, i <= length text ->
        animate_text text speed !! (2 * i)
        = Some (AnimShow (ai_markup (take i text)))
        /\ animate_text text speed !! (2 * i + 1) = Some (AnimSleep speed)).
Proof.
  unfold animate_text. rewrite shown_frames_join.
  split; [|split; [|split; [|split]]];
    [| | | |intros i Hi;
            apply (frame_sleep_lookup (fun i => ai_markup (take i text)));
            rewrite lookup_seq_lt by lia; reflexivity].
  - assert (Hl : forall l : list nat,
               length
                 (mjoin ((fun i => [AnimShow (ai_markup (take i text));
                                    AnimSleep speed]) <$> l))
               = 2 * length l).
    { induction l as [|i l IH]; [reflexivity|].
      change (i :: l) with ([i] ++ l).
      rewrite fmap_app, join_app, !length_app, IH. simpl. lia. }
    rewrite Hl, length_seq. reflexivity.
  - rewrite length_fmap, length_seq. reflexivity.
  - intros i Hi. rewrite list_lookup_fmap, lookup_seq_lt by lia. reflexivity.
  - rewrite Nat.add_1_r, seq_S, fmap_app, last_app. simpl.
    rewrite take_ge by lia. reflexivity.
Qed.
